(** * IndexedRedis field descriptors: a shallow embedding and its properties

    The development follows the Python sources
      - [IndexedRedis/fields/__init__.py]   ([IRField], [IRNullType], [irNull]),
      - [IndexedRedis/fields/compressed.py] ([IRCompressedField]),
      - [IndexedRedis/fields/pickle_field.py] ([IRPickleField]),
    read with Python 3 semantics ([bytes != str], [unicode = str]).

    Python values are a small universe [pyval] (None, booleans, integers,
    texts, byte strings and the instances of [IRNullType]; floats and
    objects of other classes are not values of the model); a call either
    returns a value or raises, which is the sum type [result].  An
    object with attributes is a record of the attributes its [__init__]
    sets, and a method keeps the name it has in the source.

    What the sources use from outside is modelled first: the operators and
    builtins of Python, the helpers of [compat_str], [hashlib.md5]
    ([MD5]), and [zlib] ([Zlib], the format of RFC 1950 and 1951); [bz2]
    and the compressor of [zlib] stay behind the interface [CompressMod],
    and [pickle] behind [PickleMod], with protocol 2 on [None], booleans
    and integers as an instance ([Pickle]).
    The model class and the link field are not among the sources: the
    module [Links] models records, links and reload from the specification.

    The second part states and proves the properties, each claim under its
    number, and after them further properties of the descriptors. *)

From Stdlib Require Import ZArith NArith List Strings.String Strings.Ascii Strings.Byte
  Decimal DecimalZ Lia.
From stdpp Require Import base option list strings gmap.

Set Default Proof Using "Type".

(** ** Results of a call: a value or a raised exception *)

Inductive exn :=
| ValueError
| TypeError
| AttributeError
| UnicodeDecodeError
| UnicodeEncodeError
| ZlibError
| OSError.

Inductive result (A : Type) :=
| Ok (a : A)
| Raise (e : exn).
Arguments Ok {A} a.
Arguments Raise {A} e.

#[global] Instance result_ret : MRet result := fun _ a => Ok a.
#[global] Instance result_bind : MBind result :=
  fun _ _ k m => match m with Ok a => k a | Raise e => Raise e end.

(** [try: m except Exception: raise ValueError(...)] *)
Definition except_as_ValueError {A} (m : result A) : result A :=
  match m with Ok a => Ok a | Raise _ => Raise ValueError end.

(** ** Python values *)

(** A [str] is a sequence of Unicode code points, a [bytes] a sequence of
    octets. *)
Definition pystr := list N.
Definition pybytes := list byte.

(** Literals: the code points, resp. the octets, of an ASCII string. *)
Definition ustr (s : string) : pystr := map Byte.to_N (list_byte_of_string s).
Definition bstr (s : string) : pybytes := list_byte_of_string s.

(** [PyIRNull oid content] is an instance of [IRNullType], a subclass of
    [str]: [oid] is the identity of the object, [content] the text the
    [str] part of the object holds. *)
Inductive pyval :=
| PyNone
| PyBool (b : bool)
| PyInt (z : Z)
| PyStr (s : pystr)
| PyBytes (b : pybytes)
| PyIRNull (oid : N) (content : pystr).

#[global] Instance byte_eq_dec : EqDecision byte := Byte.byte_eq_dec.

#[global] Instance pyval_eq_dec : EqDecision pyval.
Proof. solve_decision. Defined.

Definition pystr_eqb (s t : pystr) : bool := bool_decide (s = t).

Definition pybytes_eqb (a b : pybytes) : bool := bool_decide (a = b).

(** [isinstance(v, IRNullType)], [isinstance(v, bytes)], [isinstance(v, str)] *)
Definition isinstance_IRNullType (v : pyval) : bool :=
  match v with PyIRNull _ _ => true | _ => false end.

Definition isinstance_bytes (v : pyval) : bool :=
  match v with PyBytes _ => true | _ => false end.

Definition isinstance_str (v : pyval) : bool :=
  match v with PyStr _ | PyIRNull _ _ => true | _ => false end.

(** ** [IRNullType] (fields/__init__.py, lines 192-226) *)

(** [__new__(self, val='')]: [str.__new__(self, '')]; [oid] is the identity
    of the object that the allocation returns. *)
Definition IRNullType___new__ (oid : N) (val : pyval) : pyval :=
  PyIRNull oid (ustr "").

Definition IRNullType___eq__ (self otherVal : pyval) : bool :=
  isinstance_IRNullType otherVal.

Definition IRNullType___ne__ (self otherVal : pyval) : bool :=
  negb (isinstance_IRNullType otherVal).

Definition IRNullType___str__ (self : pyval) : pystr := ustr "".

Definition IRNullType___repr__ (self : pyval) : pystr := ustr "IRNullType()".

(** [irNull = IRNullType()], the instance the module creates when it is
    imported: the object numbered [0]. *)
Definition irNull : pyval := IRNullType___new__ 0 (PyStr (ustr "")).

(** ** The operators [==], [!=], [is], [in] and truth values *)

(** [a == b] on the builtin values, where neither operand is an
    [IRNullType]: [bool] is a subclass of [int], [str] and [bytes] never
    compare equal, [None] equals itself only. *)
Definition builtin_eq (a b : pyval) : bool :=
  match a, b with
  | PyNone, PyNone => true
  | PyBool x, PyBool y => Bool.eqb x y
  | PyBool x, PyInt z | PyInt z, PyBool x => Z.eqb (Z.b2z x) z
  | PyInt x, PyInt y => Z.eqb x y
  | PyStr s, PyStr t => pystr_eqb s t
  | PyBytes s, PyBytes t => pybytes_eqb s t
  | _, _ => false
  end.

(** [a == b]: an [IRNullType] operand answers with its [__eq__]; as the
    right operand it answers too, first when the left one is a [str] (the
    reflected method of a subclass has priority), and otherwise after the
    left operand's [__eq__] returned [NotImplemented]. *)
Definition py_eq (a b : pyval) : bool :=
  if isinstance_IRNullType a then IRNullType___eq__ a b
  else if isinstance_IRNullType b then IRNullType___eq__ b a
  else builtin_eq a b.

(** [a != b], dispatched the same way to [__ne__]; the builtin [__ne__]
    negates [__eq__]. *)
Definition py_ne (a b : pyval) : bool :=
  if isinstance_IRNullType a then IRNullType___ne__ a b
  else if isinstance_IRNullType b then IRNullType___ne__ b a
  else negb (builtin_eq a b).

(** [a is b], as far as the language fixes it: [None], [True] and [False]
    are unique objects, an [IRNullType] instance is the object of its
    identity; of two numbers or texts nothing is known, and they are taken
    to be distinct objects. *)
Definition py_is (a b : pyval) : bool :=
  match a, b with
  | PyNone, PyNone => true
  | PyBool x, PyBool y => Bool.eqb x y
  | PyIRNull i _, PyIRNull j _ => N.eqb i j
  | _, _ => false
  end.

(** [x in items] for a tuple: some item [e] with [e is x or e == x]. *)
Definition py_in (x : pyval) (items : list pyval) : bool :=
  existsb (fun e => py_is e x || py_eq e x) items.

(** [len(v)] of a text or a byte string. *)
Definition py_len (v : pyval) : option nat :=
  match v with
  | PyStr s | PyIRNull _ s => Some (length s)
  | PyBytes b => Some (length b)
  | _ => None
  end.

(** [bool(v)]: the truth value. [IRNullType] defines no [__bool__], its
    length decides. *)
Definition py_truth (v : pyval) : bool :=
  match v with
  | PyNone => false
  | PyBool b => b
  | PyInt z => negb (Z.eqb z 0)
  | PyStr s | PyIRNull _ s => negb (Nat.eqb (length s) 0)
  | PyBytes b => negb (Nat.eqb (length b) 0)
  end.

(** [v[:n]] of a text or a byte string. *)
Definition py_slice_to (n : nat) (v : pyval) : result pyval :=
  match v with
  | PyStr s | PyIRNull _ s => Ok (PyStr (take n s))
  | PyBytes b => Ok (PyBytes (take n b))
  | _ => Raise TypeError
  end.

(** ** Text: [str(x)], [int(x)], [lower()] and UTF-8 *)

#[global] Instance result_fmap : FMap result :=
  fun _ _ f m => match m with Ok a => Ok (f a) | Raise e => Raise e end.

(** What Python takes from the Unicode character database for code points
    outside ASCII: the lower-casing of a text (it depends on the context of
    a letter), the value of a decimal digit, the white space. *)
Class UnicodeData := {
  unicode_lower : pystr -> pystr;
  unicode_decimal : N -> option N;
  unicode_isspace : N -> bool
}.

Definition is_ascii (c : N) : bool := (c <? 128)%N.

Definition ascii_lower (c : N) : N :=
  if ((65 <=? c) && (c <=? 90))%N then (c + 32)%N else c.

Definition bytes_lower (b : pybytes) : pybytes :=
  map (fun x => default x (Byte.of_N (ascii_lower (Byte.to_N x)))) b.

Definition str_lower `{UnicodeData} (s : pystr) : pystr :=
  if forallb is_ascii s then map ascii_lower s else unicode_lower s.

(** [value.lower()] *)
Definition py_lower `{UnicodeData} (v : pyval) : result pyval :=
  match v with
  | PyStr s | PyIRNull _ s => Ok (PyStr (str_lower s))
  | PyBytes b => Ok (PyBytes (bytes_lower b))
  | _ => Raise AttributeError
  end.

(** [str(z)] for an integer. *)
Fixpoint uint_digits (u : Decimal.uint) : pystr :=
  match u with
  | Nil => []
  | D0 u => 48%N :: uint_digits u
  | D1 u => 49%N :: uint_digits u
  | D2 u => 50%N :: uint_digits u
  | D3 u => 51%N :: uint_digits u
  | D4 u => 52%N :: uint_digits u
  | D5 u => 53%N :: uint_digits u
  | D6 u => 54%N :: uint_digits u
  | D7 u => 55%N :: uint_digits u
  | D8 u => 56%N :: uint_digits u
  | D9 u => 57%N :: uint_digits u
  end.

Definition str_of_int (z : Z) : pystr :=
  match Z.to_int z with
  | Pos u => uint_digits u
  | Neg u => 45%N :: uint_digits u
  end.

(** [int(text)]: white space, a sign, decimal digits with single
    underscores between them, white space. *)
Definition ascii_isspace (c : N) : bool :=
  ((9 <=? c) && (c <=? 13) || (c =? 32))%N.

Definition digit_value (c : N) : option Z :=
  if ((48 <=? c) && (c <=? 57))%N then Some (Z.of_N (c - 48)) else None.

Fixpoint int_digits (acc : Z) (after_underscore : bool) (cs : pystr) : option (Z * pystr) :=
  match cs with
  | [] => if after_underscore then None else Some (acc, [])
  | c :: cs' =>
      match digit_value c with
      | Some d => int_digits (10 * acc + d) false cs'
      | None =>
          if after_underscore then None
          else if (c =? 95)%N then int_digits acc true cs'
          else Some (acc, cs)
      end
  end.

Fixpoint skip_spaces (cs : pystr) : pystr :=
  match cs with
  | c :: cs' => if ascii_isspace c then skip_spaces cs' else cs
  | [] => []
  end.

Definition int_of_ascii (cs : pystr) : result Z :=
  let cs := skip_spaces cs in
  let '(negative, cs) :=
    match cs with
    | 43%N :: r => (false, r)
    | 45%N :: r => (true, r)
    | _ => (false, cs)
    end in
  match head cs ≫= digit_value with
  | None => Raise ValueError
  | Some _ =>
      match int_digits 0 false cs with
      | Some (n, rest) =>
          if forallb ascii_isspace rest
          then Ok (if negative then (- n)%Z else n)
          else Raise ValueError
      | None => Raise ValueError
      end
  end.

(** A [str] is first brought to ASCII: digits and spaces of other scripts
    become ASCII ones, anything else a question mark. *)
Definition decimal_and_space_to_ascii `{UnicodeData} (c : N) : N :=
  if is_ascii c then c
  else if unicode_isspace c then 32%N
  else match unicode_decimal c with
       | Some d => (48 + d)%N
       | None => 63%N
       end.

Definition int_of_str `{UnicodeData} (s : pystr) : result Z :=
  int_of_ascii (map decimal_and_space_to_ascii s).

(** [int(x)] *)
Definition py_int_new `{UnicodeData} (x : pyval) : result pyval :=
  match x with
  | PyInt z => Ok (PyInt z)
  | PyBool b => Ok (PyInt (Z.b2z b))
  | PyStr s | PyIRNull _ s => PyInt <$> int_of_str s
  | PyBytes b => PyInt <$> int_of_ascii (map Byte.to_N b)
  | PyNone => Raise TypeError
  end.

(** UTF-8, the default encoding of [compat_str], with the [strict] error
    handler. *)
Definition byte_of_N (n : N) : byte := default x00 (Byte.of_N n).

Definition utf8_encode_cp (c : N) : result pybytes :=
  (if c <? 0x80 then Ok [byte_of_N c]
   else if c <? 0x800 then
     Ok [byte_of_N (0xC0 + c / 64); byte_of_N (0x80 + c mod 64)]
   else if c <? 0x10000 then
     if (0xD800 <=? c) && (c <? 0xE000) then Raise UnicodeEncodeError
     else Ok [byte_of_N (0xE0 + c / 4096); byte_of_N (0x80 + (c / 64) mod 64);
              byte_of_N (0x80 + c mod 64)]
   else if c <? 0x110000 then
     Ok [byte_of_N (0xF0 + c / 262144); byte_of_N (0x80 + (c / 4096) mod 64);
         byte_of_N (0x80 + (c / 64) mod 64); byte_of_N (0x80 + c mod 64)]
   else Raise UnicodeEncodeError)%N.

Fixpoint utf8_encode (s : pystr) : result pybytes :=
  match s with
  | [] => Ok []
  | c :: s' =>
      match utf8_encode_cp c, utf8_encode s' with
      | Ok b, Ok bs => Ok (b ++ bs)
      | Raise e, _ | _, Raise e => Raise e
      end
  end.

Definition utf8_cont (b : byte) : option N :=
  let n := Byte.to_N b in
  if ((0x80 <=? n) && (n <? 0xC0))%N then Some (n - 0x80)%N else None.

Fixpoint utf8_decode (bs : pybytes) : result pystr :=
  match bs with
  | [] => Ok []
  | b0 :: r0 =>
      let n0 := Byte.to_N b0 in
      if (n0 <? 0x80)%N then cons n0 <$> utf8_decode r0
      else if (n0 <? 0xC2)%N then Raise UnicodeDecodeError
      else if (n0 <? 0xE0)%N then
        match r0 with
        | b1 :: r1 =>
            match utf8_cont b1 with
            | Some c1 => cons ((n0 - 0xC0) * 64 + c1)%N <$> utf8_decode r1
            | None => Raise UnicodeDecodeError
            end
        | _ => Raise UnicodeDecodeError
        end
      else if (n0 <? 0xF0)%N then
        match r0 with
        | b1 :: b2 :: r2 =>
            match utf8_cont b1, utf8_cont b2 with
            | Some c1, Some c2 =>
                let c := ((n0 - 0xE0) * 4096 + c1 * 64 + c2)%N in
                if ((c <? 0x800) || (0xD800 <=? c) && (c <? 0xE000))%N
                then Raise UnicodeDecodeError
                else cons c <$> utf8_decode r2
            | _, _ => Raise UnicodeDecodeError
            end
        | _ => Raise UnicodeDecodeError
        end
      else if (n0 <? 0xF5)%N then
        match r0 with
        | b1 :: b2 :: b3 :: r3 =>
            match utf8_cont b1, utf8_cont b2, utf8_cont b3 with
            | Some c1, Some c2, Some c3 =>
                let c := ((n0 - 0xF0) * 262144 + c1 * 4096 + c2 * 64 + c3)%N in
                if ((c <? 0x10000) || (0x110000 <=? c))%N
                then Raise UnicodeDecodeError
                else cons c <$> utf8_decode r3
            | _, _, _ => Raise UnicodeDecodeError
            end
        | _ => Raise UnicodeDecodeError
        end
      else Raise UnicodeDecodeError
  end.

(** ** The helpers of [IndexedRedis.compat_str] *)

(** Modelled from the spec: [compat_str.to_unicode] is not among the
    sources.  Storage values are text ("typed storage encoding"): a [bytes]
    value is decoded with the default encoding, any other value [x] is
    [str(x)]. *)
Definition to_unicode (x : pyval) : result pyval :=
  match x with
  | PyBytes b => PyStr <$> utf8_decode b
  | PyStr s => Ok (PyStr s)
  | PyIRNull _ _ => Ok (PyStr (IRNullType___str__ x))
  | PyInt z => Ok (PyStr (str_of_int z))
  | PyBool b => Ok (PyStr (ustr (if b then "True" else "False")))
  | PyNone => Ok (PyStr (ustr "None"))
  end.

(** Modelled from the spec: [compat_str.tobytes] is not among the sources.
    A [bytes] value is returned as it is, any other value [x] is
    [x.encode(encoding)], which only a text has. *)
Definition tobytes (x : pyval) : result pybytes :=
  match x with
  | PyBytes b => Ok b
  | PyStr s | PyIRNull _ s => utf8_encode s
  | _ => Raise AttributeError
  end.

(** Modelled from the spec: [compat_str.isStringy] is not among the
    sources.  "String-like": an instance of [str] or of [bytes]. *)
Definition isStringy (x : pyval) : bool :=
  isinstance_str x || isinstance_bytes x.

(** Modelled from the spec: [compat_str.isEmptyString] is not among the
    sources.  The "empty input" of the compressed and pickled descriptors:
    a value equal to the empty text or to the empty byte string.  The null
    value is "never equal to empty string" (section 3), so it is no empty
    input. *)
Definition isEmptyString (x : pyval) : bool :=
  py_in x [PyStr (ustr ""); PyBytes (bstr "")].

(** Modelled from the spec: [compat_str.isEncodedString] is not among the
    sources.  A value that does not "look like the binary format": a text,
    an instance of [str], as opposed to a byte string. *)
Definition isEncodedString (x : pyval) : bool := isinstance_str x.

(** ** [hashlib.md5] (RFC 1321) *)

Module MD5.

Definition mask32 (x : N) : N := N.land x 0xFFFFFFFF.

Definition rotl32 (x s : N) : N :=
  mask32 (N.lor (N.shiftl x s) (N.shiftr x (32 - s))).

Definition not32 (x : N) : N := N.lxor x 0xFFFFFFFF.

Definition K : list N := [
  0xd76aa478; 0xe8c7b756; 0x242070db; 0xc1bdceee;
  0xf57c0faf; 0x4787c62a; 0xa8304613; 0xfd469501;
  0x698098d8; 0x8b44f7af; 0xffff5bb1; 0x895cd7be;
  0x6b901122; 0xfd987193; 0xa679438e; 0x49b40821;
  0xf61e2562; 0xc040b340; 0x265e5a51; 0xe9b6c7aa;
  0xd62f105d; 0x02441453; 0xd8a1e681; 0xe7d3fbc8;
  0x21e1cde6; 0xc33707d6; 0xf4d50d87; 0x455a14ed;
  0xa9e3e905; 0xfcefa3f8; 0x676f02d9; 0x8d2a4c8a;
  0xfffa3942; 0x8771f681; 0x6d9d6122; 0xfde5380c;
  0xa4beea44; 0x4bdecfa9; 0xf6bb4b60; 0xbebfbc70;
  0x289b7ec6; 0xeaa127fa; 0xd4ef3085; 0x04881d05;
  0xd9d4d039; 0xe6db99e5; 0x1fa27cf8; 0xc4ac5665;
  0xf4292244; 0x432aff97; 0xab9423a7; 0xfc93a039;
  0x655b59c3; 0x8f0ccc92; 0xffeff47d; 0x85845dd1;
  0x6fa87e4f; 0xfe2ce6e0; 0xa3014314; 0x4e0811a1;
  0xf7537e82; 0xbd3af235; 0x2ad7d2bb; 0xeb86d391 ]%N.

Definition S : list N := [
  7; 12; 17; 22; 7; 12; 17; 22; 7; 12; 17; 22; 7; 12; 17; 22;
  5; 9; 14; 20; 5; 9; 14; 20; 5; 9; 14; 20; 5; 9; 14; 20;
  4; 11; 16; 23; 4; 11; 16; 23; 4; 11; 16; 23; 4; 11; 16; 23;
  6; 10; 15; 21; 6; 10; 15; 21; 6; 10; 15; 21; 6; 10; 15; 21 ]%N.

Definition state : Type := N * N * N * N.

Definition init : state := (0x67452301, 0xefcdab89, 0x98badcfe, 0x10325476)%N.

(** One of the 64 operations of a block [M] of sixteen words. *)
Definition step (M : list N) (st : state) (i : nat) : state :=
  let '(A, B, C, D) := st in
  let '(F, g) :=
    if (i <? 16)%nat then (N.lor (N.land B C) (N.land (not32 B) D), i)
    else if (i <? 32)%nat then
      (N.lor (N.land D B) (N.land (not32 D) C), ((5 * i + 1) mod 16)%nat)
    else if (i <? 48)%nat then (N.lxor (N.lxor B C) D, ((3 * i + 5) mod 16)%nat)
    else (N.lxor C (N.lor B (not32 D)), ((7 * i) mod 16)%nat) in
  let F := mask32 (F + A + nth i K 0 + nth g M 0)%N in
  (D, mask32 (B + rotl32 F (nth i S 0))%N, B, C).

Definition block (st : state) (M : list N) : state :=
  let '(A, B, C, D) := st in
  let '(A', B', C', D') := fold_left (step M) (seq 0 64) st in
  (mask32 (A + A'), mask32 (B + B'), mask32 (C + C'), mask32 (D + D'))%N.

(** Little-endian words of a byte sequence whose length is a multiple of
    four, and back. *)
Fixpoint words (n : nat) (bs : list N) : list N :=
  match n, bs with
  | Datatypes.S n, b0 :: b1 :: b2 :: b3 :: bs =>
      (b0 + 256 * (b1 + 256 * (b2 + 256 * b3)))%N :: words n bs
  | _, _ => []
  end.

Definition word_bytes (w : N) : list N :=
  [w mod 256; (w / 256) mod 256; (w / 65536) mod 256; (w / 16777216) mod 256]%N.

Definition pad (bs : list N) : list N :=
  let len := length bs in
  let zeros := ((55 + 64 - len mod 64) mod 64)%nat in
  let bits := ((8 * N.of_nat len) mod 2 ^ 64)%N in
  bs ++ 128%N :: repeat 0%N zeros
     ++ word_bytes (bits mod 2 ^ 32) ++ word_bytes (bits / 2 ^ 32).

Fixpoint blocks (n : nat) (st : state) (ws : list N) : state :=
  match n with
  | O => st
  | Datatypes.S n => blocks n (block st (take 16 ws)) (drop 16 ws)
  end.

Definition digest (msg : pybytes) : list N :=
  let bs := pad (map Byte.to_N msg) in
  let ws := words (length bs / 4) bs in
  let '(A, B, C, D) := blocks (length ws / 16) init ws in
  word_bytes A ++ word_bytes B ++ word_bytes C ++ word_bytes D.

Definition hex_digit (n : N) : N := (if n <? 10 then 48 + n else 87 + n)%N.

(** [md5(msg).hexdigest()] *)
Definition hexdigest (msg : pybytes) : pystr :=
  flat_map (fun b => [hex_digit (b / 16); hex_digit (b mod 16)]%N) (digest msg).

End MD5.

(** ** Types as values: what [valueType] may be *)

Inductive type_id :=
| Ty_str
| Ty_bytes
| Ty_int
| Ty_bool
| Ty_float
| Ty_class (name : string).

#[global] Instance type_id_eq_dec : EqDecision type_id.
Proof. solve_decision. Defined.

(** A type: its identity, its class attribute [CAN_INDEX] when it has one,
    and what calling it returns. *)
Record pytype := {
  ty_id : type_id;
  ty_CAN_INDEX : option pyval;
  ty_new : pyval -> result pyval
}.

(** The argument [valueType]: a type, or some other value ([None], or a
    value that is no type). *)
Inductive pyobj :=
| Obj_type (t : pytype)
| Obj_val (v : pyval).

(** [repr(b)] of a byte string: the quote is the apostrophe, or the
    double quote when [b] holds an apostrophe and no double quote; the
    quote and the backslash are escaped, as are tab, newline, carriage
    return, and with [\x] and two hexadecimal digits every octet that is
    not printable ASCII. *)
Definition bytes_repr (b : pybytes) : pystr :=
  let holds (c : N) := existsb (fun x => (Byte.to_N x =? c)%N) b in
  let quote := if holds 39%N && negb (holds 34%N) then 34%N else 39%N in
  let escape (x : byte) : pystr :=
    let n := Byte.to_N x in
    if ((n =? quote) || (n =? 92))%N then [92; n]%N
    else if (n =? 9)%N then [92; 116]%N
    else if (n =? 10)%N then [92; 110]%N
    else if (n =? 13)%N then [92; 114]%N
    else if ((n <? 32) || (127 <=? n))%N then
      [92; 120; MD5.hex_digit (n / 16); MD5.hex_digit (n mod 16)]%N
    else [n] in
  98%N :: quote :: flat_map escape b ++ [quote].

(** [str(x)]: of a byte string its [repr], of any other value its text. *)
Definition py_str_new (x : pyval) : result pyval :=
  match x with
  | PyBytes b => Ok (PyStr (bytes_repr b))
  | _ => to_unicode x
  end.

Definition py_str : pytype :=
  {| ty_id := Ty_str; ty_CAN_INDEX := None; ty_new := py_str_new |}.

Definition py_bytes : pytype :=
  {| ty_id := Ty_bytes; ty_CAN_INDEX := None;
     ty_new := fun x => match x with PyBytes b => Ok x | _ => Raise TypeError end |}.

Definition py_int `{UnicodeData} : pytype :=
  {| ty_id := Ty_int; ty_CAN_INDEX := None; ty_new := py_int_new |}.

Definition py_bool : pytype :=
  {| ty_id := Ty_bool; ty_CAN_INDEX := None;
     ty_new := fun x => Ok (PyBool (py_truth x)) |}.

(** [o == t] for a builtin type [t]: types compare by identity. *)
Definition is_type (i : type_id) (o : pyobj) : bool :=
  match o with
  | Obj_type t => bool_decide (ty_id t = i)
  | Obj_val _ => false
  end.

(** [o == None] *)
Definition eq_None (o : pyobj) : bool :=
  match o with
  | Obj_type _ => false
  | Obj_val v => py_eq v PyNone
  end.

(** [isinstance(o, type)] *)
Definition isinstance_type (o : pyobj) : bool :=
  match o with Obj_type _ => true | Obj_val _ => false end.

(** [getattr(o, 'CAN_INDEX', True)]: no value of [pyval] has the attribute. *)
Definition getattr_CAN_INDEX (o : pyobj) : pyval :=
  match o with
  | Obj_type t => default (PyBool true) (ty_CAN_INDEX t)
  | Obj_val _ => PyBool true
  end.

(** [o(value)] *)
Definition py_call (o : pyobj) (value : pyval) : result pyval :=
  match o with
  | Obj_type t => ty_new t value
  | Obj_val _ => Raise TypeError
  end.

(** ** Field objects *)

Inductive irclass :=
| Class_IRField
| Class_IRCompressedField
| Class_IRPickleField.

(** The methods of [IRField] that [__init__] binds to an instance. *)
Inductive method :=
| Method__convertStr
| Method__convertBytes
| Method__noConvert
| Method__convertBool.

(** A field object: its class, the text it is as a [str] (the name), and
    the attributes an [__init__] has set on the instance; an attribute the
    instance does not have is looked up in the class. *)
Record field := {
  f_class : irclass;
  f_name : pystr;
  a_valueType : option pyobj;
  a_convert : option method;
  a_toStorage : option method;
  a_CAN_INDEX : option pyval;
  a_hashIndex : option pyval;
  a_defaultValue : option pyval;
  a_compressMode : option pystr;
  a_header : option pybytes
}.

(** The class attributes [CAN_INDEX] and [hashIndex]:
    [IRField] (lines 43, 47), [IRCompressedField] (compressed.py, lines
    47-48), [IRPickleField] (pickle_field.py, line 27, [hashIndex]
    inherited). *)
Definition class_CAN_INDEX (c : irclass) : pyval :=
  match c with
  | Class_IRField => PyBool true
  | Class_IRCompressedField => PyBool true
  | Class_IRPickleField => PyBool false
  end.

Definition class_hashIndex (c : irclass) : pyval :=
  match c with
  | Class_IRField => PyBool false
  | Class_IRCompressedField => PyBool true
  | Class_IRPickleField => PyBool false
  end.

(** [self.CAN_INDEX], [self.hashIndex] *)
Definition CAN_INDEX (self : field) : pyval :=
  default (class_CAN_INDEX (f_class self)) (a_CAN_INDEX self).

Definition hashIndex (self : field) : pyval :=
  default (class_hashIndex (f_class self)) (a_hashIndex self).

(** [self.valueType], [self.header], [self.compressMode]: instance
    attributes only. *)
Definition valueType (self : field) : result pyobj :=
  match a_valueType self with Some o => Ok o | None => Raise AttributeError end.

Definition header (self : field) : result pybytes :=
  match a_header self with Some h => Ok h | None => Raise AttributeError end.

Definition compressMode (self : field) : result pystr :=
  match a_compressMode self with Some m => Ok m | None => Raise AttributeError end.

(** [__new__(self, name='', ...)]: [str.__new__(self, name)], in all three
    classes. *)
Definition field___new__ (c : irclass) (name : pystr) : field :=
  {| f_class := c; f_name := name;
     a_valueType := None; a_convert := None; a_toStorage := None;
     a_CAN_INDEX := None; a_hashIndex := None; a_defaultValue := None;
     a_compressMode := None; a_header := None |}.

Definition set_valueType (o : pyobj) (self : field) : field :=
  {| f_class := f_class self; f_name := f_name self;
     a_valueType := Some o; a_convert := a_convert self;
     a_toStorage := a_toStorage self; a_CAN_INDEX := a_CAN_INDEX self;
     a_hashIndex := a_hashIndex self; a_defaultValue := a_defaultValue self;
     a_compressMode := a_compressMode self; a_header := a_header self |}.

Definition set_convert (m : method) (self : field) : field :=
  {| f_class := f_class self; f_name := f_name self;
     a_valueType := a_valueType self; a_convert := Some m;
     a_toStorage := a_toStorage self; a_CAN_INDEX := a_CAN_INDEX self;
     a_hashIndex := a_hashIndex self; a_defaultValue := a_defaultValue self;
     a_compressMode := a_compressMode self; a_header := a_header self |}.

Definition set_toStorage (m : method) (self : field) : field :=
  {| f_class := f_class self; f_name := f_name self;
     a_valueType := a_valueType self; a_convert := a_convert self;
     a_toStorage := Some m; a_CAN_INDEX := a_CAN_INDEX self;
     a_hashIndex := a_hashIndex self; a_defaultValue := a_defaultValue self;
     a_compressMode := a_compressMode self; a_header := a_header self |}.

Definition set_CAN_INDEX (v : pyval) (self : field) : field :=
  {| f_class := f_class self; f_name := f_name self;
     a_valueType := a_valueType self; a_convert := a_convert self;
     a_toStorage := a_toStorage self; a_CAN_INDEX := Some v;
     a_hashIndex := a_hashIndex self; a_defaultValue := a_defaultValue self;
     a_compressMode := a_compressMode self; a_header := a_header self |}.

Definition set_hashIndex (v : pyval) (self : field) : field :=
  {| f_class := f_class self; f_name := f_name self;
     a_valueType := a_valueType self; a_convert := a_convert self;
     a_toStorage := a_toStorage self; a_CAN_INDEX := a_CAN_INDEX self;
     a_hashIndex := Some v; a_defaultValue := a_defaultValue self;
     a_compressMode := a_compressMode self; a_header := a_header self |}.

Definition set_defaultValue (v : pyval) (self : field) : field :=
  {| f_class := f_class self; f_name := f_name self;
     a_valueType := a_valueType self; a_convert := a_convert self;
     a_toStorage := a_toStorage self; a_CAN_INDEX := a_CAN_INDEX self;
     a_hashIndex := a_hashIndex self; a_defaultValue := Some v;
     a_compressMode := a_compressMode self; a_header := a_header self |}.

Definition set_compressMode (m : pystr) (h : pybytes) (self : field) : field :=
  {| f_class := f_class self; f_name := f_name self;
     a_valueType := a_valueType self; a_convert := a_convert self;
     a_toStorage := a_toStorage self; a_CAN_INDEX := a_CAN_INDEX self;
     a_hashIndex := a_hashIndex self; a_defaultValue := a_defaultValue self;
     a_compressMode := Some m; a_header := Some h |}.

(** ** [IRField] (fields/__init__.py, lines 20-189) *)

Section IRField.
Context `{UnicodeData}.

(** [_isNullValue] (lines 179-186) *)
Definition _isNullValue (value : pyval) : bool :=
  py_in value [PyBytes []; PyStr []; irNull].

(** Lines 145-149, 163-164. *)
Definition _convertStr (self : field) (value : pyval) : result pyval :=
  to_unicode value.

Definition _convertBytes (self : field) (value : pyval) : result pyval :=
  PyBytes <$> tobytes value.

Definition _noConvert (self : field) (value : pyval) : result pyval :=
  Ok value.

(** [_convertBool] (lines 166-176) *)
Definition _convertBool (self : field) (value : pyval) : result pyval :=
  if _isNullValue value then Ok irNull
  else
    xvalue ← py_lower value;
    if py_in xvalue [PyStr (ustr "true"); PyStr (ustr "1")] then Ok (PyBool true)
    else if py_in xvalue [PyStr (ustr "false"); PyStr (ustr "0")] then Ok (PyBool false)
    else Raise ValueError.

Definition call_method (m : method) (self : field) (value : pyval) : result pyval :=
  match m with
  | Method__convertStr => _convertStr self value
  | Method__convertBytes => _convertBytes self value
  | Method__noConvert => _noConvert self value
  | Method__convertBool => _convertBool self value
  end.

(** [__init__] (lines 49-100); [self] is the object [__new__] returned. *)
Definition IRField___init__ (self : field) (name : pystr) (valueType : pyobj)
    (hashIndex : pyval) : result field :=
  match
    (if is_type Ty_str valueType then
       Ok (Obj_type py_str, set_convert Method__convertStr self)
     else if is_type Ty_bytes valueType then
       Ok (Obj_type py_bytes,
           set_CAN_INDEX (PyBool false) (set_convert Method__convertBytes self))
     else if eq_None valueType then
       Ok (valueType,
           set_CAN_INDEX (PyBool false)
             (set_toStorage Method__noConvert (set_convert Method__noConvert self)))
     else if negb (isinstance_type valueType) then Raise ValueError
     else if is_type Ty_bool valueType then
       Ok (valueType, set_convert Method__convertBool self)
     else Ok (valueType, self))
  with
  | Raise e => Raise e
  | Ok (valueType, self) =>
      let self := set_valueType valueType self in
      let self :=
        if py_is (getattr_CAN_INDEX valueType) (PyBool false)
        then set_CAN_INDEX (PyBool false) self
        else if is_type Ty_float valueType
        then set_CAN_INDEX (PyBool false) self
        else self in
      Ok (set_hashIndex hashIndex self)
  end.

(** [IRField(name, valueType, hashIndex)] *)
Definition IRField (name : pystr) (valueType : pyobj) (hashIndex : pyval) : result field :=
  IRField___init__ (field___new__ Class_IRField name) name valueType hashIndex.

(** The method [toStorage] of the class (lines 102-111), and
    [self.toStorage(value)]. *)
Definition IRField_toStorage (self : field) (value : pyval) : result pyval :=
  to_unicode value.

Definition toStorage (self : field) (value : pyval) : result pyval :=
  match a_toStorage self with
  | Some m => call_method m self value
  | None => IRField_toStorage self value
  end.

(** The method [convert] of the class (lines 113-121), and
    [self.convert(value)]. *)
Definition IRField_convert (self : field) (value : pyval) : result pyval :=
  if _isNullValue value then Ok irNull
  else t ← valueType self; py_call t value.

Definition convert (self : field) (value : pyval) : result pyval :=
  match a_convert self with
  | Some m => call_method m self value
  | None => IRField_convert self value
  end.

(** [isIndexHashed] (lines 136-143) and [toIndex] (lines 123-134) *)
Definition isIndexHashed (self : field) : bool := py_truth (hashIndex self).

Definition toIndex (self : field) (value : pyval) : result pyval :=
  ret ← toStorage self value;
  if py_is (PyBool (isIndexHashed self)) (PyBool false) then Ok ret
  else b ← tobytes ret; Ok (PyStr (MD5.hexdigest b)).

End IRField.

(** ** [IRPickleField] (fields/pickle_field.py, lines 29-31, 65-66) *)

Definition IRPickleField___init__ (self : field) (name : pystr) (defaultValue : pyval) : field :=
  set_defaultValue defaultValue (set_valueType (Obj_val PyNone) self).

Definition IRPickleField (name : pystr) (defaultValue : pyval) : field :=
  IRPickleField___init__ (field___new__ Class_IRPickleField name) name defaultValue.

(** The module [pickle]: [dumps(value, protocol)] and [loads(data)]. *)
Record PickleMod := {
  dumps : pyval -> Z -> result pybytes;
  loads : pybytes -> result pyval
}.

(** [P.loads(value)]: a value that is no byte string is refused. *)
Definition call_loads (P : PickleMod) (value : pyval) : result pyval :=
  match value with
  | PyBytes b => loads P b
  | _ => Raise TypeError
  end.

(** The conversions of [IRPickleField] (pickle_field.py, lines 33-57). *)
Module PickleField.

Section Methods.
(** The module the file imports. *)
Variable pickle : PickleMod.

(** [_toStorage] (lines 33-37) *)
Definition _toStorage (self : field) (value : pyval) : result pyval :=
  if isEmptyString value then Ok (PyStr (ustr ""))
  else PyBytes <$> dumps pickle value 2.

(** [__loadPickle] (lines 53-57), a static method. *)
Definition __loadPickle (value : pyval) : result pyval :=
  if negb (isEncodedString value) && isStringy value then call_loads pickle value
  else Ok PyNone.

(** [_fromStorage] (lines 39-48) *)
Definition _fromStorage (self : field) (value : pyval) : result pyval :=
  if isEmptyString value then Ok (PyStr (ustr ""))
  else
    let origData := value in
    loadedPickle ← __loadPickle value;
    if negb (py_is loadedPickle PyNone) then Ok loadedPickle
    else Ok origData.

(** [_fromInput] (lines 50-51) *)
Definition _fromInput (self : field) (value : pyval) : pyval := value.

End Methods.

End PickleField.

(** ** [pickle], protocol 2

    [Pickle.dumps] writes [None], the booleans and the integers as
    [pickle.dumps(value, 2)] of Python 3 does, and [Pickle.loads] runs the
    machine of [pickle.loads] on the opcodes that these pickles are made
    of.  The pickle of a text, of a byte string or of an instance of a class,
    the other protocols and the other opcodes are outside this model:
    [dumps] and [loads] refuse them.  The exceptions of [pickle]
    ([PicklingError], [UnpicklingError], [EOFError]) are not among [exn];
    [ValueError] stands for them. *)
Module Pickle.

(** [n] octets of [x], the least significant first. *)
Fixpoint little_endian (n : nat) (x : Z) : pybytes :=
  match n with
  | O => []
  | S n => byte_of_N (Z.to_N (x mod 256)) :: little_endian n (x / 256)
  end.

(** [x.bit_length()] *)
Definition bit_length (x : Z) : Z :=
  if (x =? 0)%Z then 0%Z else (Z.log2 (Z.abs x) + 1)%Z.

(** [encode_long]: the shortest two's complement of [x], little-endian. *)
Definition encode_long (x : Z) : pybytes :=
  if (x =? 0)%Z then []
  else
    let nbytes := Z.to_nat (bit_length x / 8 + 1) in
    let result := little_endian nbytes (x mod 256 ^ Z.of_nat nbytes) in
    match rev result with
    | last :: before :: _ =>
        if (x <? 0)%Z && bool_decide (last = xff) && (128 <=? Byte.to_N before)%N
        then removelast result
        else result
    | _ => result
    end.

(** The opcodes of an integer ([save_long]): BININT1, BININT2, BININT,
    LONG1, LONG4. *)
Definition save_long (x : Z) : pybytes :=
  if ((0 <=? x) && (x <=? 0xff))%Z then x4b :: little_endian 1 x
  else if ((0 <=? x) && (x <=? 0xffff))%Z then x4d :: little_endian 2 x
  else if ((-0x80000000 <=? x) && (x <=? 0x7fffffff))%Z then
    x4a :: little_endian 4 (x mod 2 ^ 32)
  else
    let encoded := encode_long x in
    let n := Z.of_nat (length encoded) in
    if (n <? 256)%Z then x8a :: little_endian 1 n ++ encoded
    else x8b :: little_endian 4 n ++ encoded.

(** The opcodes of a value: NONE, NEWTRUE, NEWFALSE, or those of an
    integer. *)
Definition save (value : pyval) : result pybytes :=
  match value with
  | PyNone => Ok [x4e]
  | PyBool true => Ok [x88]
  | PyBool false => Ok [x89]
  | PyInt z => Ok (save_long z)
  | _ => Raise ValueError
  end.

(** [pickle.dumps(value, protocol)]: PROTO 2, the value, STOP. *)
Definition dumps (value : pyval) (protocol : Z) : result pybytes :=
  if (protocol =? 2)%Z then
    body ← save value; Ok ([x80; x02] ++ body ++ [x2e])
  else Raise ValueError.

(** The number that little-endian octets spell, unsigned and signed
    ([decode_long]). *)
Fixpoint unsigned (bs : pybytes) : Z :=
  match bs with
  | [] => 0
  | b :: bs => Z.of_N (Byte.to_N b) + 256 * unsigned bs
  end.

Definition signed (bs : pybytes) : Z :=
  let u := unsigned bs in
  let bound := (256 ^ Z.of_nat (length bs))%Z in
  if (2 * u <? bound)%Z then u else (u - bound)%Z.

(** [k] octets of the data, and the rest. *)
Definition read (k : nat) (data : pybytes) : option (pybytes * pybytes) :=
  if (k <=? length data)%nat then Some (take k data, drop k data) else None.

(** The machine: one opcode after the other, each with its argument, on a
    stack; STOP returns the top of the stack.  Every step consumes an
    octet, so [fuel] as long as the data never runs out. *)
Fixpoint run (fuel : nat) (data : pybytes) (stack : list pyval) : option pyval :=
  match fuel, data with
  | S fuel, op :: data =>
      let push (k : nat) (value : pybytes -> pyval) :=
        '(arg, data) ← read k data; run fuel data (value arg :: stack) in
      let counted (width : nat) (number : pybytes -> Z) :=
        '(count, data) ← read width data;
        if (number count <? 0)%Z then None
        else
          '(arg, data) ← read (Z.to_nat (number count)) data;
          run fuel data (PyInt (signed arg) :: stack) in
      if bool_decide (op = x80) then
        '(version, data) ← read 1 data;
        if (unsigned version <=? 5)%Z then run fuel data stack else None
      else if bool_decide (op = x4e) then push 0%nat (fun _ => PyNone)
      else if bool_decide (op = x88) then push 0%nat (fun _ => PyBool true)
      else if bool_decide (op = x89) then push 0%nat (fun _ => PyBool false)
      else if bool_decide (op = x4b) then push 1%nat (fun arg => PyInt (unsigned arg))
      else if bool_decide (op = x4d) then push 2%nat (fun arg => PyInt (unsigned arg))
      else if bool_decide (op = x4a) then push 4%nat (fun arg => PyInt (signed arg))
      else if bool_decide (op = x8a) then counted 1%nat unsigned
      else if bool_decide (op = x8b) then counted 4%nat signed
      else if bool_decide (op = x2e) then head stack
      else None
  | _, _ => None
  end.

(** [pickle.loads(data)] *)
Definition loads (data : pybytes) : result pyval :=
  match run (length data) data [] with
  | Some value => Ok value
  | None => Raise ValueError
  end.

Definition reference : PickleMod := Build_PickleMod dumps loads.

End Pickle.

(** ** [IRCompressedField] (fields/compressed.py) *)

(** A compression module, [zlib] or [bz2]: [compress(data, level)] and
    [decompress(data)] on byte strings. *)
Record CompressMod := {
  compress : pybytes -> Z -> result pybytes;
  decompress : pybytes -> result pybytes
}.

(** [M.decompress(value)]: a value that is no byte string is refused. *)
Definition call_decompress (M : CompressMod) (value : pyval) : result pyval :=
  match value with
  | PyBytes b => PyBytes <$> decompress M b
  | _ => Raise TypeError
  end.

Definition COMPRESS_MODE_ZLIB : pystr := ustr "zlib".
Definition _COMPRESS_MODE_ALIASES_ZLIB : list pyval := [PyStr (ustr "gzip"); PyStr (ustr "gz")].
Definition COMPRESS_MODE_BZ2 : pystr := ustr "bz2".
Definition _COMPRESS_MODE_ALIASES_BZ2 : list pyval := [PyStr (ustr "bzip2")].

(** The headers [b'x\xda'] and [b'BZh9'] (lines 73, 76). *)
Definition header_zlib : pybytes := [x78; xda].
Definition header_bz2 : pybytes := bstr "BZh9".

(** [__init__] (lines 51-78) *)
Definition IRCompressedField___init__ (self : field) (name : pystr)
    (compressMode defaultValue : pyval) : result field :=
  let self := set_valueType (Obj_val PyNone) self in
  let self := set_defaultValue defaultValue self in
  if py_eq compressMode (PyStr COMPRESS_MODE_ZLIB)
     || py_in compressMode _COMPRESS_MODE_ALIASES_ZLIB
  then Ok (set_compressMode COMPRESS_MODE_ZLIB header_zlib self)
  else if py_eq compressMode (PyStr COMPRESS_MODE_BZ2)
          || py_in compressMode _COMPRESS_MODE_ALIASES_BZ2
  then Ok (set_compressMode COMPRESS_MODE_BZ2 header_bz2 self)
  else Raise ValueError.

Definition IRCompressedField (name : pystr) (compressMode defaultValue : pyval) : result field :=
  IRCompressedField___init__ (field___new__ Class_IRCompressedField name)
    name compressMode defaultValue.

Section IRCompressedField.
(** The modules the file imports. *)
Variables zlib bz2 : CompressMod.

(** [getCompressMod] (lines 81-90); [None] when neither test holds. *)
Definition getCompressMod (self : field) : result (option CompressMod) :=
  m ← compressMode self;
  if pystr_eqb m COMPRESS_MODE_ZLIB then Ok (Some zlib)
  else if pystr_eqb m COMPRESS_MODE_BZ2 then Ok (Some bz2)
  else Ok None.

(** [self.getCompressMod().f]: the attribute [f] of the module. *)
Definition getCompressMod_attr (self : field) : result CompressMod :=
  M ← getCompressMod self;
  match M with Some M => Ok M | None => Raise AttributeError end.

(** [tobytes(value[:len(self.header)]) == self.header] *)
Definition bears_header (self : field) (value : pyval) : result bool :=
  h ← header self;
  prefix ← py_slice_to (length h) value;
  b ← tobytes prefix;
  Ok (pybytes_eqb b h).

(** [_toStorage] (lines 92-108) *)
Definition _toStorage (self : field) (value : pyval) : result pyval :=
  if isEmptyString value then Ok (PyStr (ustr ""))
  else
    valueBytes ← except_as_ValueError (tobytes value);
    bears_header self value ≫= fun already : bool =>
    if already then Ok value
    else
      M ← getCompressMod_attr self;
      b ← tobytes value;
      PyBytes <$> compress M b 9.

(** [_fromStorage] (lines 110-119) *)
Definition _fromStorage (self : field) (value : pyval) : result pyval :=
  if isEmptyString value then Ok (PyStr (ustr ""))
  else
    (if isStringy value then bears_header self value else Ok false)
      ≫= fun compressed : bool =>
    if compressed then
      M ← getCompressMod_attr self;
      call_decompress M value
    else Ok value.

(** [_fromInput] (lines 121-122) *)
Definition _fromInput (self : field) (value : pyval) : pyval := value.

End IRCompressedField.

(** ** The [zlib] format (RFC 1950, RFC 1951)

    [Zlib.decompress] reads a zlib stream as [zlib.decompress] does: the
    two header bytes, the deflate blocks (stored, fixed and dynamic Huffman
    codes), the Adler-32 check value; bytes after the stream are ignored.
    [None] stands for [zlib.error]. *)

Module Zlib.

Definition bitstream := list bool.

(** Bits are read from the least significant bit of each byte. *)
Definition byte_bits (b : byte) : bitstream :=
  map (N.testbit (Byte.to_N b)) [0; 1; 2; 3; 4; 5; 6; 7]%N.

Definition bits_of (bs : pybytes) : bitstream := flat_map byte_bits bs.

Fixpoint read_bits (n : nat) (s : bitstream) : option (N * bitstream) :=
  match n, s with
  | O, _ => Some (0%N, s)
  | S n, b :: s => '(v, s) ← read_bits n s; Some (N.b2n b + 2 * v, s)%N
  | S _, [] => None
  end.

(** Skip to the next byte boundary: the stream started on one. *)
Definition align (s : bitstream) : bitstream := drop (length s mod 8) s.

(** A canonical Huffman code: how many symbols have a code of each
    length 1..15, and the symbols in the order of their codes. *)
Record huffman := {
  h_count : list Z;
  h_symbol : list N
}.

Definition indexed (lengths : list N) : list (N * N) :=
  combine (map N.of_nat (seq 0 (length lengths))) lengths.

Definition symbols_of_length (lengths : list N) (len : N) : list N :=
  map fst (List.filter (fun p => (snd p =? len)%N) (indexed lengths)).

Definition code_lengths : list N := map N.of_nat (seq 1 15).

(** The code of the given lengths, and what is left of the code space:
    negative when the lengths are over-subscribed, positive when the code
    is incomplete. *)
Definition construct (lengths : list N) : huffman * Z :=
  let count :=
    map (fun len => Z.of_nat (length (symbols_of_length lengths len))) code_lengths in
  ({| h_count := count; h_symbol := flat_map (symbols_of_length lengths) code_lengths |},
   fold_left (fun room c => 2 * room - c)%Z count 1%Z).

Fixpoint decode_from (counts : list Z) (symbols : list N) (code first index : Z)
    (s : bitstream) : option (N * bitstream) :=
  match counts, s with
  | count :: counts, b :: s =>
      let code := (code + Z.b2z b)%Z in
      if (code - count <? first)%Z
      then sym ← symbols !! Z.to_nat (index + (code - first)); Some (sym, s)
      else decode_from counts symbols (2 * code) (2 * (first + count)) (index + count) s
  | _, _ => None
  end.

Definition decode (h : huffman) (s : bitstream) : option (N * bitstream) :=
  decode_from (h_count h) (h_symbol h) 0 0 0 s.

Definition lbase : list N :=
  [3; 4; 5; 6; 7; 8; 9; 10; 11; 13; 15; 17; 19; 23; 27; 31; 35; 43; 51; 59;
   67; 83; 99; 115; 131; 163; 195; 227; 258]%N.
Definition lext : list nat :=
  [0; 0; 0; 0; 0; 0; 0; 0; 1; 1; 1; 1; 2; 2; 2; 2; 3; 3; 3; 3; 4; 4; 4; 4;
   5; 5; 5; 5; 0].
Definition dbase : list N :=
  [1; 2; 3; 4; 5; 7; 9; 13; 17; 25; 33; 49; 65; 97; 129; 193; 257; 385; 513;
   769; 1025; 1537; 2049; 3073; 4097; 6145; 8193; 12289; 16385; 24577]%N.
Definition dext : list nat :=
  [0; 0; 0; 0; 1; 1; 2; 2; 3; 3; 4; 4; 5; 5; 6; 6; 7; 7; 8; 8; 9; 9; 10; 10;
   11; 11; 12; 12; 13; 13].

(** The output is kept with its last byte first; [copy n dist out]
    repeats [n] bytes from [dist] bytes back. *)
Fixpoint copy (n dist : nat) (out : list N) : list N :=
  match n with
  | O => out
  | S n => copy n dist (default 0%N (out !! (dist - 1)) :: out)
  end.

(** The literals and length/distance pairs of one block. *)
Fixpoint codes (fuel : nat) (lencode distcode : huffman) (out : list N)
    (s : bitstream) : option (list N * bitstream) :=
  match fuel with
  | O => None
  | S fuel =>
      '(sym, s) ← decode lencode s;
      if (sym <? 256)%N then codes fuel lencode distcode (sym :: out) s
      else if (sym =? 256)%N then Some (out, s)
      else
        let i := N.to_nat (sym - 257) in
        base ← lbase !! i;
        extra ← lext !! i;
        '(e, s) ← read_bits extra s;
        let len := (base + e)%N in
        '(dsym, s) ← decode distcode s;
        base ← dbase !! N.to_nat dsym;
        extra ← dext !! N.to_nat dsym;
        '(e, s) ← read_bits extra s;
        let dist := N.to_nat (base + e) in
        if (length out <? dist)%nat then None
        else codes fuel lencode distcode (copy (N.to_nat len) dist out) s
  end.

Fixpoint read_bytes (n : nat) (out : list N) (s : bitstream) : option (list N * bitstream) :=
  match n with
  | O => Some (out, s)
  | S n => '(b, s) ← read_bits 8 s; read_bytes n (b :: out) s
  end.

Definition stored (out : list N) (s : bitstream) : option (list N * bitstream) :=
  let s := align s in
  '(len, s) ← read_bits 16 s;
  '(nlen, s) ← read_bits 16 s;
  if (N.lxor len nlen =? 0xFFFF)%N then read_bytes (N.to_nat len) out s else None.

Definition fixed_lencode : huffman :=
  fst (construct (repeat 8 144 ++ repeat 9 112 ++ repeat 7 24 ++ repeat 8 8)%N).
Definition fixed_distcode : huffman := fst (construct (repeat 5%N 30)).

Definition order : list nat :=
  [16; 17; 18; 0; 8; 7; 9; 6; 10; 5; 11; 4; 12; 3; 13; 2; 14; 1; 15].

Fixpoint read_code_lengths (n : nat) (s : bitstream) : option (list N * bitstream) :=
  match n with
  | O => Some ([], s)
  | S n => '(l, s) ← read_bits 3 s; '(ls, s) ← read_code_lengths n s; Some (l :: ls, s)
  end.

(** The code lengths of the literal/length and the distance code, as the
    code-length code [h] spells them; [acc] holds them last first. *)
Fixpoint read_lengths (fuel : nat) (h : huffman) (total : nat) (acc : list N)
    (s : bitstream) : option (list N * bitstream) :=
  match fuel with
  | O => None
  | S fuel =>
      if (total <=? length acc)%nat then Some (rev acc, s)
      else
        '(sym, s) ← decode h s;
        if (sym <? 16)%N then read_lengths fuel h total (sym :: acc) s
        else
          '(len, n, s) ←
            (if (sym =? 16)%N then
               last ← head acc; '(r, s) ← read_bits 2 s; Some (last, 3 + r, s)
             else if (sym =? 17)%N then
               '(r, s) ← read_bits 3 s; Some (0, 3 + r, s)
             else '(r, s) ← read_bits 7 s; Some (0, 11 + r, s))%N;
          if (total <? length acc + N.to_nat n)%nat then None
          else read_lengths fuel h total (repeat len (N.to_nat n) ++ acc) s
  end.

(** A code that leaves room in the code space is accepted only when all
    its codes have length one. *)
Definition usable (c : huffman) (room : Z) : bool :=
  (room =? 0)%Z
  || (0 <? room)%Z && bool_decide (Z.of_nat (length (h_symbol c)) = default 0%Z (head (h_count c))).

Definition dynamic (fuel : nat) (out : list N) (s : bitstream) : option (list N * bitstream) :=
  '(nlen, s) ← read_bits 5 s;
  '(ndist, s) ← read_bits 5 s;
  '(ncode, s) ← read_bits 4 s;
  let nlen := (N.to_nat nlen + 257)%nat in
  let ndist := (N.to_nat ndist + 1)%nat in
  let ncode := (N.to_nat ncode + 4)%nat in
  if (286 <? nlen)%nat || (30 <? ndist)%nat then None
  else
    '(cl, s) ← read_code_lengths ncode s;
    let lengths :=
      foldr (fun '(i, l) acc => <[i := l]> acc) (repeat 0%N 19) (combine order cl) in
    let '(h, room) := construct lengths in
    if negb (room =? 0)%Z then None
    else
      '(lengths, s) ← read_lengths fuel h (nlen + ndist) [] s;
      if (default 0 (lengths !! 256%nat) =? 0)%N then None
      else
        let '(lencode, lroom) := construct (take nlen lengths) in
        let '(distcode, droom) := construct (drop nlen lengths) in
        if usable lencode lroom && usable distcode droom
        then codes fuel lencode distcode out s
        else None.

(** The blocks of a deflate stream, up to the one marked last. *)
Fixpoint blocks (n fuel : nat) (out : list N) (s : bitstream) : option (list N * bitstream) :=
  match n with
  | O => None
  | S n =>
      '(last, s) ← read_bits 1 s;
      '(type, s) ← read_bits 2 s;
      '(out, s) ←
        (if (type =? 0)%N then stored out s
         else if (type =? 1)%N then codes fuel fixed_lencode fixed_distcode out s
         else if (type =? 2)%N then dynamic fuel out s
         else None);
      if (last =? 1)%N then Some (out, s) else blocks n fuel out s
  end.

(** Every block and every symbol takes a bit at least, so the number of
    bits bounds both loops. *)
Definition inflate (s : bitstream) : option (list N * bitstream) :=
  blocks (S (length s)) (S (length s)) [] s.

Definition adler32 (bs : list N) : N :=
  let '(a, b) :=
    fold_left (fun '(a, b) x => let a := ((a + x) mod 65521)%N in (a, ((b + a) mod 65521)%N))
      bs (1%N, 0%N) in
  (b * 65536 + a)%N.

(** The value of bytes, most significant first. *)
Definition big_endian (bs : list N) : N := fold_left (fun v b => (256 * v + b)%N) bs 0%N.

Definition decompress_opt (data : pybytes) : option pybytes :=
  match map Byte.to_N data with
  | cmf :: flg :: _ =>
      if ((cmf mod 16 =? 8) && (cmf / 16 <=? 7) && ((256 * cmf + flg) mod 31 =? 0)
          && negb (N.testbit flg 5))%N
      then
        '(out, s) ← inflate (bits_of (drop 2 data));
        '(check, _) ← read_bytes 4 [] (align s);
        if (big_endian (rev check) =? adler32 (rev out))%N
        then Some (map byte_of_N (rev out))
        else None
      else None
  | _ => None
  end.

Definition decompress (data : pybytes) : result pybytes :=
  match decompress_opt data with
  | Some b => Ok b
  | None => Raise ZlibError
  end.

(** A writer of zlib streams: one block of literals in the fixed Huffman
    code.  It writes what RFC 1951 allows, and on short inputs without
    repetitions the very bytes of [zlib.compress]; which matches and
    which block types [zlib] chooses elsewhere is left to [zlib]. *)
Definition msb_first (width : nat) (v : N) : bitstream :=
  map (fun i => N.testbit v (N.of_nat i)) (rev (seq 0 width)).

Definition fixed_literal (b : N) : bitstream :=
  if (b <? 144)%N then msb_first 8 (48 + b) else msb_first 9 (400 + (b - 144)).

Fixpoint pack (n : nat) (s : bitstream) : list N :=
  match n with
  | O => []
  | S n =>
      fold_right (fun (b : bool) v => (N.b2n b + 2 * v)%N) 0%N (take 8 s) :: pack n (drop 8 s)
  end.

(** The header for a window of 32K and the flag bits of a level. *)
Definition stream_header (level : Z) : list N :=
  let flevel :=
    (if level <? 2 then 0 else if level <? 6 then 1 else if level =? 6 then 2 else 3)%Z in
  let h := (0x7800 + 64 * Z.to_N flevel)%N in
  let h := (h + (31 - h mod 31))%N in
  [h / 256; h mod 256]%N.

Definition compress (data : pybytes) (level : Z) : result pybytes :=
  if ((level <? -1) || (9 <? level))%Z then Raise ZlibError
  else
    let level := if (level =? -1)%Z then 6%Z else level in
    let bs := map Byte.to_N data in
    let body := [true; true; false] ++ flat_map fixed_literal bs ++ repeat false 7 in
    let a := adler32 bs in
    Ok (map byte_of_N
          (stream_header level ++ pack ((length body + 7) / 8) body
           ++ [a / 16777216; (a / 65536) mod 256; (a / 256) mod 256; a mod 256]%N)).

Definition reference : CompressMod :=
  Build_CompressMod compress decompress.

End Zlib.

(** ** Records, foreign links and reload

    The model class ([IndexedRedisModel]) and the link field
    ([IRForeignLinkField]) are not among the sources; only their tests
    are (tests/UnitTests/test_IRForeignLinkField.py).  This part follows
    the specification, sections 3 (data model), 4.2 (dirty-field
    tracking), 4.3 (lazy resolution) and 4.4 (reload).  An object in memory
    is a tree: a resolved link holds the record it resolved to. *)

Module Links.

(** Modelled from the spec: a record id, per model ("optional id,
    assigned by store on first save"): the model's name and a number. *)
Definition rid : Type := string * N.

(** Modelled from the spec: what the store holds for a field, a scalar (as
    the descriptor of the field converts it) or the id a link refers to
    ("then stores the resulting id"), empty for a link that was cleared. *)
Inductive sval :=
| SScalar (v : pyval)
| SLink (target : option rid).

(** Modelled from the spec: the backing store, [getFields(model, id)]. *)
Definition store : Type := gmap rid (list (string * sval)).

(** Modelled from the spec: ObjectRecord and ForeignLinkHandle (section
    3).  A record has an optional id, its current values and the baseline
    of the last load or save; a handle has an id, the resolved object when
    there is one, and the [fetched] flag. *)
Inductive record :=
| Record (r_id : option rid) (r_current r_baseline : list (string * value))
with value :=
| VScalar (v : pyval)
| VLink (h : handle)
with handle :=
| Handle (h_id : option rid) (h_obj : option record) (h_fetched : bool).

Definition r_id (r : record) : option rid := let 'Record i _ _ := r in i.
Definition r_current (r : record) : list (string * value) := let 'Record _ c _ := r in c.
Definition r_baseline (r : record) : list (string * value) := let 'Record _ _ b := r in b.
Definition h_obj (h : handle) : option record := let 'Handle _ o _ := h in o.

(** Modelled from the spec: [isFetched()] "reports state without forcing
    resolution". *)
Definition isFetched (h : handle) : bool := let 'Handle _ _ f := h in f.

(** Modelled from the spec: the id of a link; "exactly one of {id-only,
    resolved-object} is authoritative at a time", the resolved record
    when there is one. *)
Definition link_id (h : handle) : option rid :=
  match h with
  | Handle _ (Some r) _ => r_id r
  | Handle i None _ => i
  end.

(** Modelled from the spec: the value of a field in a mapping kept in the
    order of the schema ("the ordered list of FieldDescriptors"), and its
    update. *)
Fixpoint assoc {A} (name : string) (l : list (string * A)) : option A :=
  match l with
  | [] => None
  | (n, a) :: l => if String.eqb n name then Some a else assoc name l
  end.

Fixpoint assoc_set {A} (name : string) (a : A) (l : list (string * A)) : list (string * A) :=
  match l with
  | [] => []
  | (n, x) :: l => if String.eqb n name then (n, a) :: l else (n, x) :: assoc_set name a l
  end.

(** Modelled from the spec: assignment to a link field (section 4.3): a
    raw id gives (id, unresolved); a record gives (its id if it was saved,
    resolved to that record); the empty value clears the link. *)
Definition assign_id (i : rid) : handle := Handle (Some i) None false.
Definition assign_record (r : record) : handle := Handle (r_id r) (Some r) true.
Definition assign_empty : handle := Handle None None false.

(** Modelled from the spec: a record as loaded from the store, its links
    unresolved ("created at ... record-load time (unresolved by
    default)"), its baseline the loaded values. *)
Definition of_stored (sv : sval) : value :=
  match sv with
  | SScalar v => VScalar v
  | SLink t => VLink (Handle t None false)
  end.

Definition load (i : rid) (fields : list (string * sval)) : record :=
  let vs := map (fun '(n, sv) => (n, of_stored sv)) fields in
  Record (Some i) vs vs.

Definition fetch (st : store) (i : rid) : option record := load i <$> st !! i.

(** Modelled from the spec: reading a link (section 4.3): "if resolved,
    return cached object; else perform exactly one fetch-by-id against
    the target model, set fetched=true, cache, and return the result (or
    null-equivalent if no id)".  The handle is returned as the read
    leaves it. *)
Definition resolve (st : store) (h : handle) : option record * handle :=
  match h with
  | Handle _ o true => (o, h)
  | Handle (Some i) _ false => let o := fetch st i in (o, Handle (Some i) o true)
  | Handle None _ false => (None, h)
  end.

(** Modelled from the spec: an operation on a record object, which is
    "owned exclusively by the caller holding it": its result and the
    object as the operation leaves it. *)
Definition op (A : Type) : Type := record -> A * record.

Definition op_ret {A} (a : A) : op A := fun r => (a, r).
Definition op_bind {A B} (m : op A) (k : A -> op B) : op B :=
  fun r => let '(a, r) := m r in k a r.

(** Modelled from the spec: reading the attribute of a record, which
    resolves a link ("resolved lazily on first read"). *)
Definition read_field (st : store) (name : string) : op (option value) :=
  fun r =>
    match assoc name (r_current r) with
    | Some (VLink h) =>
        let '(_, h') := resolve st h in
        (Some (VLink h'), Record (r_id r) (assoc_set name (VLink h') (r_current r)) (r_baseline r))
    | v => (v, r)
    end.

(** Modelled from the spec: "read-only introspection never triggers a
    fetch"; looking at the baseline and the current value of a field
    resolves nothing. *)
Definition peek (name : string) : op (option value * option value) :=
  fun r => ((assoc name (r_baseline r), assoc name (r_current r)), r).

(** Modelled from the spec: "value-level equality (NullSentinel equals
    only NullSentinel)" for scalars; "link comparison uses the id only". *)
Definition same_value (b c : value) : bool :=
  match b, c with
  | VScalar x, VScalar y => py_eq x y
  | VLink h, VLink k => bool_decide (link_id h = link_id k)
  | _, _ => false
  end.

(** Modelled from the spec: NullSentinel "represents no value assigned". *)
Definition unset : value := VScalar irNull.

(** Modelled from the spec: a mapping of field names to (old value, new
    value), in the order of the fields. *)
Definition report : Type := list (string * (value * value)).

(** Modelled from the spec: [getUpdatedFields()] "returns
    fieldName→(baselineValue, currentValue) for every field whose current
    value differs from baseline" (section 4.2). *)
Fixpoint updated (names : list string) : op report :=
  match names with
  | [] => op_ret []
  | n :: names =>
      op_bind (peek n) (fun '(b, c) =>
      op_bind (updated names) (fun rest =>
      let b := default unset b in
      let c := default unset c in
      op_ret (if same_value b c then rest else (n, (b, c)) :: rest)))
  end.

Definition getUpdatedFields : op report :=
  fun r => updated (map fst (r_current r)) r.

(** Modelled from the spec: reload (section 4.4).  The stored fields of
    the holder are fetched again, and a field is reported when its
    reloaded value differs from the value before.  A link is compared by
    its id; with [cascadeObjects] a resolved target is reloaded itself, and
    the link is reported too when that reload reported something.  A link
    whose id changed becomes the stored id, unresolved: nothing is
    resolved by a reload. *)
Section Reload.
Variable reload_record : record -> option (record * report).
Variable cascadeObjects : bool.

Definition reload_value (sv : sval) (old : value) : option (value * bool) :=
  match sv, old with
  | SLink t, VLink (Handle i o f as h) =>
      if bool_decide (link_id h = t) then
        match o with
        | Some target =>
            if cascadeObjects then
              '(target', changes) ← reload_record target;
              Some (VLink (Handle i (Some target') f), negb (bool_decide (changes = [])))
            else Some (old, false)
        | None => Some (old, false)
        end
      else Some (of_stored sv, true)
  | _, _ => Some (of_stored sv, negb (same_value old (of_stored sv)))
  end.

Fixpoint reload_fields (fields : list (string * sval)) (current : list (string * value))
    : option (list (string * value) * report) :=
  match current with
  | [] => Some ([], [])
  | (n, old) :: current =>
      sv ← assoc n fields;
      '(new, changed) ← reload_value sv old;
      '(rest, changes) ← reload_fields fields current;
      Some ((n, new) :: rest,
            if changed : bool then (n, (old, new)) :: changes else changes)
  end.
End Reload.

Fixpoint reload (st : store) (cascadeObjects : bool) (r : record) {struct r}
    : option (record * report) :=
  match r with
  | Record i current _ =>
      i ← i;
      fields ← st !! i;
      '(current', changes) ← reload_fields (reload st cascadeObjects) cascadeObjects fields current;
      Some (Record (Some i) current' current', changes)
  end.

End Links.

(** ** Auxiliary definitions for the statements and the examples *)

(** The character database cut down to ASCII.  The examples below use it
    on ASCII texts, for which it is never consulted. *)
Definition ascii_only : UnicodeData :=
  {| unicode_lower := fun s => s;
     unicode_decimal := fun _ => None;
     unicode_isspace := fun _ => false |}.

(** Stands for a module that an example does not call. *)
Definition uncalled : CompressMod :=
  {| compress := fun _ _ => Raise OSError; decompress := fun _ => Raise OSError |}.

(** The text a [str] object holds. *)
Definition str_content (v : pyval) : option pystr :=
  match v with
  | PyStr s | PyIRNull _ s => Some s
  | _ => None
  end.

(** The number a digit sequence spells after the digits of [acc]. *)
Fixpoint uint_val (acc : Z) (u : Decimal.uint) : Z :=
  match u with
  | Nil => acc
  | D0 u => uint_val (10 * acc + 0) u
  | D1 u => uint_val (10 * acc + 1) u
  | D2 u => uint_val (10 * acc + 2) u
  | D3 u => uint_val (10 * acc + 3) u
  | D4 u => uint_val (10 * acc + 4) u
  | D5 u => uint_val (10 * acc + 5) u
  | D6 u => uint_val (10 * acc + 6) u
  | D7 u => uint_val (10 * acc + 7) u
  | D8 u => uint_val (10 * acc + 8) u
  | D9 u => uint_val (10 * acc + 9) u
  end.

(** The table of the boolean conversion, on a lower-cased value. *)
Definition bool_table (x : pyval) : result pyval :=
  if decide (x = PyStr (ustr "true") ∨ x = PyStr (ustr "1")) then Ok (PyBool true)
  else if decide (x = PyStr (ustr "false") ∨ x = PyStr (ustr "0")) then Ok (PyBool false)
  else Raise ValueError.

(** The field a constructor call returned. *)
Definition get_ok (r : result field) : field :=
  match r with
  | Ok f => f
  | Raise _ => field___new__ Class_IRField []
  end.

(** The fields of the examples: [IRField('flag', valueType=bool)],
    [IRField('count', valueType=int)], [IRField('name')],
    [IRField('text', hashIndex=True)] and [IRCompressedField('value')]. *)
Definition bool_field : field :=
  get_ok (IRField (ustr "flag") (Obj_type py_bool) (PyBool false)).
Definition int_field : field :=
  get_ok (IRField (ustr "count") (Obj_type (@py_int ascii_only)) (PyBool false)).
Definition str_field : field :=
  get_ok (IRField (ustr "name") (Obj_type py_str) (PyBool false)).
Definition hashed_field : field :=
  get_ok (IRField (ustr "text") (Obj_type py_str) (PyBool true)).
Definition zlib_field : field :=
  get_ok (IRCompressedField (ustr "value") (PyStr COMPRESS_MODE_ZLIB) irNull).

(** [b'\x01Hello World\x01'], and [zlib.compress(b'a', 9)]. *)
Definition hello_world : pybytes := x01 :: bstr "Hello World" ++ [x01].
Definition compressed_a : pybytes := [x78; xda; x4b; x04; x00; x00; x62; x00; x62].

(** [zlib.compress(b'\x01Hello World\x01', 9)] *)
Definition compressed_hello : pybytes :=
  [x78; xda; x63; xf4; x48; xcd; xc9; xc9; x57; x08; xcf; x2f; xca; x49; x61; x04;
   x00; x1c; x37; x04; x1f].

(** The records of the link tests: a [RefedModel] record, stored with
    [intVal] 5, and a [MainModel] record whose field [other] links to it.
    [main_loaded] is the holder as fetched; in [main_resolved] the link was
    read, and [intVal] of the cached target set to 99 in memory. *)
Definition ref1 : Links.rid := ("RefedModel"%string, 1%N).
Definition main1 : Links.rid := ("MainModel"%string, 1%N).

Definition ref1_fields : list (string * Links.sval) :=
  [("name"%string, Links.SScalar (PyStr (ustr "rone")));
   ("strVal"%string, Links.SScalar (PyStr (ustr "hello")));
   ("intVal"%string, Links.SScalar (PyInt 5))].

Definition main1_fields : list (string * Links.sval) :=
  [("name"%string, Links.SScalar (PyStr (ustr "one")));
   ("value"%string, Links.SScalar (PyStr (ustr "cheese")));
   ("other"%string, Links.SLink (Some ref1))].

Definition test_store : Links.store :=
  <[ref1 := ref1_fields]> (<[main1 := main1_fields]> ∅).

Definition main_loaded : Links.record := Links.load main1 main1_fields.

Definition ref_edited : Links.record :=
  Links.Record (Some ref1)
    (Links.assoc_set "intVal" (Links.VScalar (PyInt 99))
       (Links.r_current (Links.load ref1 ref1_fields)))
    (Links.r_baseline (Links.load ref1 ref1_fields)).

Definition other_resolved : Links.handle :=
  Links.Handle (Some ref1) (Some ref_edited) true.

Definition main_resolved : Links.record :=
  Links.Record (Some main1)
    (Links.assoc_set "other" (Links.VLink other_resolved) (Links.r_current main_loaded))
    (Links.r_baseline main_loaded).

(** The stored value [sv] of a field differs from the value [old] the
    record has in memory: what changed in the store since the record was
    loaded, or in memory since then.  Scalars are compared as values,
    links by their ids. *)
Definition differs (old : Links.value) (sv : Links.sval) : bool :=
  negb (Links.same_value old (Links.of_stored sv)).

(** A record object is complete in a store when it was saved, the store
    holds a value for each of its fields, whose names are distinct, and
    every record it has resolved a link to is complete. *)
Inductive complete (st : Links.store) : Links.record → Prop :=
| complete_record (i : Links.rid) (current baseline : list (string * Links.value))
    (fields : list (string * Links.sval)) :
    st !! i = Some fields →
    NoDup (map fst current) →
    (∀ n v, (n, v) ∈ current → is_Some (Links.assoc n fields)) →
    (∀ n hi target fetched,
       (n, Links.VLink (Links.Handle hi (Some target) fetched)) ∈ current →
       complete st target) →
    complete st (Links.Record (Some i) current baseline).

(** [b] begins with the bytes [h]. *)
Definition begins_with (h b : pybytes) : Prop := take (length h) b = h.

#[global] Instance begins_with_dec (h b : pybytes) : Decision (begins_with h b).
Proof. unfold begins_with. apply _. Defined.

(** [IRField('data', valueType=bytes)], [IRField('raw', valueType=None)]
    and [IRCompressedField('value', compressMode='bz2')]. *)
Definition bytes_field : field :=
  get_ok (IRField (ustr "data") (Obj_type py_bytes) (PyBool false)).
Definition raw_field : field :=
  get_ok (IRField (ustr "raw") (Obj_val PyNone) (PyBool false)).
Definition bz2_field : field :=
  get_ok (IRCompressedField (ustr "value") (PyStr COMPRESS_MODE_BZ2) irNull).

(** [IRPickleField('obj')] *)
Definition pickle_field : field := IRPickleField (ustr "obj") irNull.

(** A digit of a hexadecimal digest: [0] to [9], [a] to [f]. *)
Definition is_hex (c : N) : bool :=
  ((48 <=? c) && (c <=? 57) || (97 <=? c) && (c <=? 102))%N.

(** * Properties *)

(** ** The models of [hashlib] and [zlib] on bytes of the libraries *)

Example md5_empty : MD5.hexdigest (bstr "") = ustr "d41d8cd98f00b204e9800998ecf8427e".
Proof. vm_compute. reflexivity. Qed.

Example md5_abc : MD5.hexdigest (bstr "abc") = ustr "900150983cd24fb0d6963f7d28e17f72".
Proof. vm_compute. reflexivity. Qed.

(** A message of two blocks. *)
Example md5_fox :
  MD5.hexdigest
    (bstr "The quick brown fox jumps over the lazy dog, then the lazy dog jumps back")
  = ustr "2687a9e12af75a915df8526892124e8e".
Proof. vm_compute. reflexivity. Qed.

(** A block in the fixed code, as [zlib.compress] writes it at level 9. *)
Example inflate_fixed : Zlib.decompress compressed_hello = Ok hello_world.
Proof. vm_compute. reflexivity. Qed.

(** A block in a dynamic code: [zlib.compress] of forty letters. *)
Example inflate_dynamic :
  Zlib.decompress
    [x78; xda; x15; xc8; x31; x01; x00; x00; x0c; x83; x30; xad; x80; x7f; x0f; x5b;
     xf9; x42; x98; x10; x20; xa5; xf6; xf9; x1e; xda; x1c; x3c; x3a; x3b; x0f; x53]
  = Ok (bstr "cabcbaacaaabaccbbbccccbcaaccbbcabacbcaab").
Proof. vm_compute. reflexivity. Qed.

(** A stored block: [zlib.compress(b'abc', 0)]. *)
Example inflate_stored :
  Zlib.decompress [x78; x01; x01; x03; x00; xfc; xff; x61; x62; x63; x02; x4d; x01; x27]
  = Ok (bstr "abc").
Proof. vm_compute. reflexivity. Qed.

(** The header alone, and a stream with a wrong check value, are errors;
    bytes after the stream are ignored. *)
Example inflate_errors :
  Zlib.decompress header_zlib = Raise ZlibError
  ∧ Zlib.decompress [x78; xda; x4b; x04; x00; x00; x62; x00; x63] = Raise ZlibError
  ∧ Zlib.decompress (compressed_a ++ bstr "junk") = Ok (bstr "a").
Proof. split_and!; vm_compute; reflexivity. Qed.

(** The writer on the inputs of the tests: the bytes of [zlib.compress]. *)
Example deflate_tests :
  Zlib.compress (bstr "a") 9 = Ok compressed_a
  ∧ Zlib.compress hello_world 9 = Ok compressed_hello
  ∧ Zlib.compress (bstr "") 9 = Ok [x78; xda; x03; x00; x00; x00; x00; x01].
Proof. split_and!; vm_compute; reflexivity. Qed.

(** ** Equality of values *)

Lemma pybytes_eqb_eq (a b : pybytes) : pybytes_eqb a b = true ↔ a = b.
Proof. apply bool_decide_eq_true. Qed.

Lemma pybytes_eqb_refl (a : pybytes) : pybytes_eqb a a = true.
Proof. by apply pybytes_eqb_eq. Qed.

Lemma builtin_eq_refl (v : pyval) : isinstance_IRNullType v = false → builtin_eq v v = true.
Proof.
  destruct v as [|b|z|s|b|i c]; simpl; intros E; try done.
  - by destruct b.
  - apply Z.eqb_refl.
  - by apply bool_decide_eq_true.
  - apply pybytes_eqb_refl.
Qed.

Lemma builtin_eq_sym (a b : pyval) : builtin_eq a b = builtin_eq b a.
Proof.
  destruct a as [|x|x|x|x|i x], b as [|y|y|y|y|j y]; simpl; try done.
  - by destruct x, y.
  - apply Z.eqb_sym.
  - unfold pystr_eqb. apply bool_decide_ext. naive_solver.
  - unfold pybytes_eqb. apply bool_decide_ext. naive_solver.
Qed.

(** [==] is reflexive and symmetric on the modelled values, so the order of
    the operands in a membership test does not matter. *)
Lemma py_eq_refl (v : pyval) : py_eq v v = true.
Proof.
  unfold py_eq. destruct (isinstance_IRNullType v) eqn:E; [done|].
  by apply builtin_eq_refl.
Qed.

Lemma py_eq_sym (a b : pyval) : py_eq a b = py_eq b a.
Proof.
  unfold py_eq, IRNullType___eq__.
  destruct (isinstance_IRNullType a), (isinstance_IRNullType b); try done.
  apply builtin_eq_sym.
Qed.

Lemma py_is_eq (a b : pyval) : py_is a b = true → py_eq a b = true.
Proof.
  destruct a as [|x|x|x|x|i x], b as [|y|y|y|y|j y]; simpl; try done.
Qed.

Lemma py_in_eq (x : pyval) (items : list pyval) :
  py_in x items = existsb (py_eq x) items.
Proof.
  unfold py_in. induction items as [|e items IH]; simpl; [done|].
  rewrite IH, (py_eq_sym e x). f_equal.
  destruct (py_is e x) eqn:E; [|done].
  apply py_is_eq in E. by rewrite py_eq_sym in E.
Qed.

(** ** The null value *)

Lemma eq_IRNull (a x : pyval) :
  isinstance_IRNullType a = true → py_eq a x = isinstance_IRNullType x.
Proof. unfold py_eq. by intros ->. Qed.

Lemma isinstance_new (oid : N) (v : pyval) :
  isinstance_IRNullType (IRNullType___new__ oid v) = true.
Proof. done. Qed.

(** C3 — the null value equals itself, and two instances of [IRNullType]
    equal each other; it equals neither the empty text nor [False]; for
    every value [x], [irNull == x] holds exactly when [x] is an instance of
    [IRNullType] (on either side of the operator), and [irNull != x] is the
    negation of [irNull == x]. *)
Theorem C3_null_equality :
  py_eq irNull irNull = true
  ∧ (∀ i j v w, py_eq (IRNullType___new__ i v) (IRNullType___new__ j w) = true)
  ∧ py_eq irNull (PyStr (ustr "")) = false
  ∧ py_eq irNull (PyBool false) = false
  ∧ (∀ x, py_eq irNull x = true ↔ isinstance_IRNullType x = true)
  ∧ (∀ x, py_eq x irNull = py_eq irNull x)
  ∧ (∀ x, py_ne irNull x = negb (py_eq irNull x))
  ∧ (∀ x, py_ne x irNull = negb (py_eq x irNull)).
Proof.
  split_and!; try done.
  - intros x. apply py_eq_sym.
  - intros x. rewrite (py_eq_sym x irNull). by destruct x.
Qed.

(** C10 — the constructor drops its argument: whatever [v] is,
    [IRNullType(v)] holds the empty text, and it equals [irNull] and every
    instance of [IRNullType].  Instances that are different objects exist;
    no comparison with [==] and no [str()] tells two instances apart. *)
Theorem C10_null_up_to_equality :
  (∀ oid v, str_content (IRNullType___new__ oid v) = Some (ustr "")
            ∧ py_eq (IRNullType___new__ oid v) irNull = true
            ∧ py_eq irNull (IRNullType___new__ oid v) = true
            ∧ (∀ oid' v', py_eq (IRNullType___new__ oid v) (IRNullType___new__ oid' v') = true))
  ∧ (∃ oid v oid' v',
       py_is (IRNullType___new__ oid v) (IRNullType___new__ oid' v') = false
       ∧ py_eq (IRNullType___new__ oid v) (IRNullType___new__ oid' v') = true)
  ∧ (∀ oid v oid' v' x,
       let a := IRNullType___new__ oid v in
       let b := IRNullType___new__ oid' v' in
       py_eq a x = py_eq b x ∧ py_eq x a = py_eq x b
       ∧ py_ne a x = py_ne b x
       ∧ to_unicode a = Ok (PyStr (ustr "")) ∧ to_unicode b = Ok (PyStr (ustr ""))
       ∧ IRNullType___str__ a = ustr "" ∧ IRNullType___str__ b = ustr "").
Proof.
  split_and!.
  - intros oid v. by split_and!.
  - by exists 1%N, (PyStr (ustr "one")), 2%N, (PyInt 2).
  - intros oid v oid' v' x a b.
    split_and!; try done; by rewrite !(py_eq_sym x).
Qed.

(** ** Conversion from storage: null and booleans *)

Lemma py_eq_PyStr (x : pyval) (s : pystr) : py_eq x (PyStr s) = true ↔ x = PyStr s.
Proof.
  destruct x as [|b|z|t|b|i c]; simpl; try by (split; [done|intros [=]]).
  unfold py_eq; simpl. unfold pystr_eqb. rewrite bool_decide_eq_true. naive_solver.
Qed.

Lemma py_in_two (x : pyval) (s t : pystr) :
  py_in x [PyStr s; PyStr t] = true ↔ x = PyStr s ∨ x = PyStr t.
Proof.
  rewrite py_in_eq; simpl. rewrite orb_false_r, orb_true_iff, !py_eq_PyStr. done.
Qed.

(** The values [_isNullValue] accepts: the empty text, the empty byte
    string and the instances of [IRNullType]. *)
Lemma isNullValue_spec (v : pyval) :
  _isNullValue v = true ↔ v = PyStr [] ∨ v = PyBytes [] ∨ isinstance_IRNullType v = true.
Proof.
  unfold _isNullValue. rewrite py_in_eq. simpl.
  destruct v as [|b|z|[|c s]|[|c b]|i c]; simpl;
    (split; [intros E; try done; by auto | by intros [E|[E|E]]]).
Qed.

Section Conversion.
Context `{UnicodeData}.

Lemma convertBool_table (self : field) (v x : pyval) :
  _isNullValue v = false → py_lower v = Ok x → _convertBool self v = bool_table x.
Proof.
  intros N L. unfold _convertBool, bool_table. rewrite N, L.
  unfold mbind, result_bind.
  destruct (py_in x [PyStr (ustr "true"); _]) eqn:T.
  - apply py_in_two in T. by rewrite decide_True.
  - rewrite decide_False by (rewrite <- py_in_two; congruence).
    destruct (py_in x [PyStr (ustr "false"); _]) eqn:F.
    + apply py_in_two in F. by rewrite decide_True.
    + by rewrite decide_False by (rewrite <- py_in_two; congruence).
Qed.

Lemma IRField_bool (name : pystr) (hi : pyval) (f : field) :
  IRField name (Obj_type py_bool) hi = Ok f → a_convert f = Some Method__convertBool.
Proof. intros [= <-]. done. Qed.

(** C4 — the conversion of a field of type [bool], on a stored value [v]
    (a text or a byte string) whose lower-cased form is [x]: the empty
    representation gives [irNull]; otherwise [x] being ['true'] or ['1']
    gives [True], ['false'] or ['0'] gives [False], and anything else
    raises [ValueError] (the conversion error) from the conversion itself:
    no other value becomes a boolean.  A byte string is never one of the
    four texts. *)
Theorem C4_bool_conversion (name : pystr) (hi : pyval) (f : field) (v : pyval) :
  IRField name (Obj_type py_bool) hi = Ok f →
  isStringy v = true →
  ∃ x, py_lower v = Ok x
    ∧ convert f (PyStr (ustr "")) = Ok irNull
    ∧ convert f (PyBytes (bstr "")) = Ok irNull
    ∧ (_isNullValue v = true → convert f v = Ok irNull)
    ∧ (_isNullValue v = false →
         (x = PyStr (ustr "true") ∨ x = PyStr (ustr "1") →
            convert f v = Ok (PyBool true))
         ∧ (x = PyStr (ustr "false") ∨ x = PyStr (ustr "0") →
            convert f v = Ok (PyBool false))
         ∧ (x ≠ PyStr (ustr "true") → x ≠ PyStr (ustr "1") →
            x ≠ PyStr (ustr "false") → x ≠ PyStr (ustr "0") →
            convert f v = Raise ValueError)
         ∧ (isinstance_bytes v = true → convert f v = Raise ValueError)).
Proof.
  intros F S. apply IRField_bool in F.
  assert (∃ x, py_lower v = Ok x) as [x L].
  { destruct v; try done; eexists; done. }
  exists x. unfold convert. rewrite F. simpl.
  split_and!; try done.
  - intros N. unfold _convertBool. by rewrite N.
  - intros N. rewrite (convertBool_table f v x N L). unfold bool_table.
    split_and!.
    + intros E. by rewrite decide_True.
    + intros E. rewrite decide_False, decide_True; [done..|].
      intros [-> | ->]; by destruct E.
    + intros. rewrite !decide_False; [done|intros [|]; done..].
    + intros B. destruct v; try done. simpl in L. injection L as <-.
      rewrite !decide_False; [done|intros [|]; done..].
Qed.

(** A value that is no text has no [lower]: the conversion raises
    [AttributeError], still no boolean. *)
Lemma convertBool_not_stringy (self : field) (v : pyval) :
  isStringy v = false → _convertBool self v = Raise AttributeError.
Proof. by destruct v. Qed.

Lemma IRField_typed (name : pystr) (vt : pyobj) (hi : pyval) (f : field) :
  IRField name vt hi = Ok f →
  is_type Ty_str vt = false → is_type Ty_bytes vt = false → eq_None vt = false →
  a_valueType f = Some vt
  ∧ a_convert f = (if is_type Ty_bool vt then Some Method__convertBool else None).
Proof.
  unfold IRField, IRField___init__. intros F S B N. rewrite S, B, N in F.
  destruct (isinstance_type vt); simpl in F; [|done].
  destruct (is_type Ty_bool vt), (py_is (getattr_CAN_INDEX vt) (PyBool false)),
    (is_type Ty_float vt); by injection F as <-.
Qed.

(** C5 (amended) — a field whose type is none of [str], [bytes], [None]:
    the empty stored representations convert to [irNull], and so does
    every value that [_isNullValue] accepts, which are these and the
    null values themselves; every other value [v] converts to
    [valueType(v)], result or exception, unless the type is [bool], whose
    conversion is the boolean table on the lower-cased value. *)
Theorem C5_null_substitution (name : pystr) (vt : pyobj) (hi : pyval) (f : field) :
  IRField name vt hi = Ok f →
  is_type Ty_str vt = false → is_type Ty_bytes vt = false → eq_None vt = false →
  convert f (PyStr (ustr "")) = Ok irNull
  ∧ convert f (PyBytes (bstr "")) = Ok irNull
  ∧ (∀ v, _isNullValue v = true → convert f v = Ok irNull)
  ∧ (∀ v, _isNullValue v = true ↔
          v = PyStr [] ∨ v = PyBytes [] ∨ isinstance_IRNullType v = true)
  ∧ (∀ v, _isNullValue v = false →
          convert f v =
            if is_type Ty_bool vt then py_lower v ≫= bool_table
            else py_call vt v).
Proof.
  intros F S B N. destruct (IRField_typed _ _ _ _ F S B N) as [V C].
  assert (∀ v, _isNullValue v = true → convert f v = Ok irNull) as Null.
  { intros v E. unfold convert. rewrite C.
    destruct (is_type Ty_bool vt); simpl.
    - unfold _convertBool. by rewrite E.
    - unfold IRField_convert. by rewrite E. }
  split_and!; [by apply Null..| |].
  - apply isNullValue_spec.
  - intros v E. unfold convert. rewrite C.
    destruct (is_type Ty_bool vt); simpl.
    + destruct (py_lower v) as [x|e] eqn:L; simpl.
      * by apply convertBool_table.
      * unfold _convertBool. by rewrite E, L.
    + unfold IRField_convert, valueType. by rewrite E, V.
Qed.

End Conversion.

Lemma C4_bool_conversion_witness :
  IRField (ustr "flag") (Obj_type py_bool) (PyBool false) = Ok bool_field
  ∧ isStringy (PyStr (ustr "TRUE")) = true
  ∧ @convert ascii_only bool_field (PyStr (ustr "TRUE")) = Ok (PyBool true).
Proof.
  split; [reflexivity|]. split; [reflexivity|].
  destruct (@C4_bool_conversion ascii_only (ustr "flag") (PyBool false) bool_field
              (PyStr (ustr "TRUE")) eq_refl eq_refl) as (x & L & _ & _ & _ & T).
  injection L as <-. apply T; [reflexivity|]. left. reflexivity.
Defined.

(** C5, as stated, fails on a field of type [bool]: the stored text
    ['false'] converts to [False], while [bool('false')] is [True]. *)
Lemma C5_counterexample :
  IRField (ustr "flag") (Obj_type py_bool) (PyBool false) = Ok bool_field
  ∧ _isNullValue (PyStr (ustr "false")) = false
  ∧ @convert ascii_only bool_field (PyStr (ustr "false")) = Ok (PyBool false)
  ∧ py_call (Obj_type py_bool) (PyStr (ustr "false")) = Ok (PyBool true).
Proof. by split_and!. Qed.

Lemma C5_null_substitution_witness :
  IRField (ustr "count") (Obj_type (@py_int ascii_only)) (PyBool false) = Ok int_field
  ∧ @convert ascii_only int_field (PyStr (ustr "")) = Ok irNull
  ∧ @convert ascii_only int_field (PyStr (ustr "42")) = Ok (PyInt 42).
Proof.
  split; [reflexivity|].
  destruct (@C5_null_substitution ascii_only (ustr "count") (Obj_type (@py_int ascii_only))
              (PyBool false) int_field eq_refl eq_refl eq_refl eq_refl)
    as (E & _ & _ & _ & V).
  split; [exact E|]. rewrite (V (PyStr (ustr "42")) eq_refl). reflexivity.
Defined.

(** ** Indexability and the index value *)

Lemma IRCompressedField_attrs (name : pystr) (mode dv : pyval) (f : field) :
  IRCompressedField name mode dv = Ok f →
  f_class f = Class_IRCompressedField
  ∧ a_CAN_INDEX f = None ∧ a_hashIndex f = None
  ∧ a_valueType f = Some (Obj_val PyNone)
  ∧ ((a_compressMode f = Some COMPRESS_MODE_ZLIB ∧ a_header f = Some header_zlib)
     ∨ (a_compressMode f = Some COMPRESS_MODE_BZ2 ∧ a_header f = Some header_bz2)).
Proof.
  unfold IRCompressedField, IRCompressedField___init__. intros F.
  destruct (_ || _); [|destruct (_ || _); [|done]];
    injection F as <-; split_and!; try done; [by left|by right].
Qed.

(** C7 — a field of type [float] is never indexable, whatever else the
    constructor is given; the pickle descriptor is not indexable; the
    compressed descriptor is indexable and its index is hashed. *)
Theorem C7_indexability :
  (∀ name can_index new hi, ∃ f,
     IRField name
       (Obj_type {| ty_id := Ty_float; ty_CAN_INDEX := can_index; ty_new := new |}) hi = Ok f
     ∧ CAN_INDEX f = PyBool false)
  ∧ (∀ name dv, CAN_INDEX (IRPickleField name dv) = PyBool false)
  ∧ (∀ name mode dv f,
       IRCompressedField name mode dv = Ok f →
       CAN_INDEX f = PyBool true ∧ hashIndex f = PyBool true ∧ isIndexHashed f = true).
Proof.
  split_and!.
  - intros name ci new hi. unfold IRField, IRField___init__. simpl.
    destruct (py_is (default (PyBool true) ci) (PyBool false)); by eexists.
  - done.
  - intros name mode dv f F.
    destruct (IRCompressedField_attrs _ _ _ _ F) as (C & I & Hh & _).
    unfold isIndexHashed, CAN_INDEX, hashIndex. by rewrite C, I, Hh.
Qed.

Lemma C7_indexability_witness :
  IRCompressedField (ustr "value") (PyStr COMPRESS_MODE_ZLIB) irNull = Ok zlib_field
  ∧ CAN_INDEX zlib_field = PyBool true
  ∧ hashIndex zlib_field = PyBool true
  ∧ isIndexHashed zlib_field = true.
Proof.
  split; [reflexivity|].
  apply (proj2 (proj2 C7_indexability) (ustr "value") (PyStr COMPRESS_MODE_ZLIB) irNull).
  reflexivity.
Defined.

(** ** Invalid field declarations *)

(** X1 — a [valueType] that is neither a type nor [None] is refused with
    [ValueError] (lines 86-87). *)
Theorem IRField_not_a_type (name : pystr) (v hi : pyval) :
  py_eq v PyNone = false → IRField name (Obj_val v) hi = Raise ValueError.
Proof. intros E. unfold IRField, IRField___init__. simpl. by rewrite E. Qed.

Lemma IRField_not_a_type_witness :
  py_eq (PyStr (ustr "int")) PyNone = false
  ∧ IRField (ustr "count") (Obj_val (PyStr (ustr "int"))) (PyBool false) = Raise ValueError.
Proof. split; [reflexivity|]. by apply IRField_not_a_type. Defined.

(** X2 — the compressed field accepts the five names of its two modes,
    and refuses any other [compressMode] with [ValueError]
    (compressed.py, lines 71-78). *)
Theorem IRCompressedField_modes (name : pystr) (mode dv : pyval) :
  (mode ∈ PyStr <$> [ustr "zlib"; ustr "gzip"; ustr "gz"; ustr "bz2"; ustr "bzip2"]
   ↔ ∃ f, IRCompressedField name mode dv = Ok f)
  ∧ (mode ∉ PyStr <$> [ustr "zlib"; ustr "gzip"; ustr "gz"; ustr "bz2"; ustr "bzip2"]
     ↔ IRCompressedField name mode dv = Raise ValueError).
Proof.
  assert (py_eq mode (PyStr COMPRESS_MODE_ZLIB) || py_in mode _COMPRESS_MODE_ALIASES_ZLIB
          || (py_eq mode (PyStr COMPRESS_MODE_BZ2) || py_in mode _COMPRESS_MODE_ALIASES_BZ2)
          = true
          ↔ mode ∈ PyStr <$> [ustr "zlib"; ustr "gzip"; ustr "gz"; ustr "bz2"; ustr "bzip2"])
    as Names.
  { rewrite !py_in_eq. cbn [existsb _COMPRESS_MODE_ALIASES_ZLIB _COMPRESS_MODE_ALIASES_BZ2].
    rewrite !orb_true_iff, !py_eq_PyStr. cbn [fmap list_fmap].
    rewrite !elem_of_cons, elem_of_nil. unfold COMPRESS_MODE_ZLIB, COMPRESS_MODE_BZ2.
    intuition discriminate. }
  unfold IRCompressedField, IRCompressedField___init__.
  rewrite <- Names.
  destruct (py_eq mode (PyStr COMPRESS_MODE_ZLIB) || _); simpl.
  - split; split; try done; by eexists.
  - destruct (py_eq mode (PyStr COMPRESS_MODE_BZ2) || _); simpl.
    + split; split; try done; by eexists.
    + split; split; try done. by intros [? ?].
Qed.

Section Index.
Context `{UnicodeData}.

Lemma IRField_hashIndex (name : pystr) (vt : pyobj) (hi : pyval) (f : field) :
  IRField name vt hi = Ok f → hashIndex f = hi.
Proof.
  unfold IRField, IRField___init__. intros F.
  repeat match type of F with
         | context [if ?c then _ else _] => destruct c; simpl in F
         end; try done; by injection F as <-.
Qed.

(** C6 — the index value is the storage value when the index is not
    hashed; when it is hashed, it is the hexadecimal MD5 digest of the
    bytes of the storage value.  An exception of [toStorage] is the
    exception of [toIndex].  The index of a field made by [IRField] is
    hashed exactly when the argument [hashIndex] is true. *)
Theorem C6_index_value (f : field) (v : pyval) :
  (isIndexHashed f = false → toIndex f v = toStorage f v)
  ∧ (isIndexHashed f = true →
       (∀ ret b, toStorage f v = Ok ret → tobytes ret = Ok b →
                 toIndex f v = Ok (PyStr (MD5.hexdigest b)))
       ∧ (∀ ret e, toStorage f v = Ok ret → tobytes ret = Raise e →
                   toIndex f v = Raise e))
  ∧ (∀ e, toStorage f v = Raise e → toIndex f v = Raise e)
  ∧ (∀ name vt hi, IRField name vt hi = Ok f → isIndexHashed f = py_truth hi).
Proof.
  unfold toIndex. split_and!.
  - intros ->. by destruct (toStorage f v).
  - intros ->. split; intros ret b -> E; simpl; by rewrite E.
  - by intros e ->.
  - intros name vt hi F. unfold isIndexHashed. by rewrite (IRField_hashIndex _ _ _ _ F).
Qed.

End Index.

Lemma C6_index_value_witness :
  @isIndexHashed hashed_field = true
  ∧ @toStorage ascii_only hashed_field (PyStr (ustr "abc")) = Ok (PyStr (ustr "abc"))
  ∧ tobytes (PyStr (ustr "abc")) = Ok (bstr "abc")
  ∧ @toIndex ascii_only hashed_field (PyStr (ustr "abc"))
    = Ok (PyStr (ustr "900150983cd24fb0d6963f7d28e17f72")).
Proof.
  split; [reflexivity|]. split; [reflexivity|]. split; [reflexivity|].
  rewrite (proj1 (proj1 (proj2 (@C6_index_value ascii_only hashed_field (PyStr (ustr "abc"))))
             eq_refl) (PyStr (ustr "abc")) (bstr "abc") eq_refl eq_refl).
  vm_compute. reflexivity.
Defined.

Example toIndex_plain :
  @toIndex ascii_only str_field (PyInt 42) = Ok (PyStr (ustr "42")).
Proof. reflexivity. Qed.

(** ** Decimal text of an integer *)

Lemma uint_digits_ascii (u : Decimal.uint) : forallb is_ascii (uint_digits u) = true.
Proof. induction u; simpl; done. Qed.

Lemma int_digits_uint (acc : Z) (u : Decimal.uint) :
  int_digits acc false (uint_digits u) = Some (uint_val acc u, []).
Proof. revert acc. induction u; intros acc; simpl; rewrite ?IHu; done. Qed.

Lemma uint_val_pos (p : positive) (u : Decimal.uint) :
  uint_val (Z.pos p) u = Z.pos (Pos.of_uint_acc u p).
Proof.
  revert p. induction u; intros p; simpl; [done|..];
    rewrite <- IHu; f_equal; lia.
Qed.

Lemma uint_val_of_uint (u : Decimal.uint) : uint_val 0 u = Z.of_uint u.
Proof.
  unfold Z.of_uint. induction u; simpl; [done|done|..]; apply uint_val_pos.
Qed.

Lemma int_of_ascii_digits (u : Decimal.uint) :
  u ≠ Nil → int_of_ascii (uint_digits u) = Ok (Z.of_uint u).
Proof.
  intros NE. rewrite <- uint_val_of_uint.
  destruct u; [done|..]; unfold int_of_ascii; cbn [uint_digits skip_spaces ascii_isspace];
    simpl; rewrite int_digits_uint; done.
Qed.

Lemma int_of_ascii_minus (u : Decimal.uint) :
  u ≠ Nil → int_of_ascii (45%N :: uint_digits u) = Ok (- Z.of_uint u)%Z.
Proof.
  intros NE. rewrite <- uint_val_of_uint.
  destruct u; [done|..]; unfold int_of_ascii; simpl; rewrite int_digits_uint; done.
Qed.

Section Decimal.
Context `{UnicodeData}.

Lemma to_ascii_id (s : pystr) :
  forallb is_ascii s = true → map decimal_and_space_to_ascii s = s.
Proof.
  induction s as [|c s IH]; simpl; [done|].
  intros [C S]%andb_true_iff. unfold decimal_and_space_to_ascii at 1.
  by rewrite C, IH.
Qed.

(** [int(str(z)) == z] *)
Lemma int_of_str_of_int (z : Z) : int_of_str (str_of_int z) = Ok z.
Proof.
  unfold int_of_str, str_of_int.
  destruct z as [|p|p]; simpl Z.to_int.
  - reflexivity.
  - rewrite to_ascii_id by apply uint_digits_ascii.
    rewrite int_of_ascii_digits by apply DecimalPos.Unsigned.to_uint_nonnil.
    f_equal. exact (DecimalZ.of_to (Z.pos p)).
  - change (map decimal_and_space_to_ascii (45%N :: ?s))
      with (45%N :: map decimal_and_space_to_ascii s).
    rewrite to_ascii_id by apply uint_digits_ascii.
    rewrite int_of_ascii_minus by apply DecimalPos.Unsigned.to_uint_nonnil.
    f_equal. exact (DecimalZ.of_to (Z.neg p)).
Qed.

Lemma str_of_int_not_null (z : Z) : _isNullValue (PyStr (str_of_int z)) = false.
Proof.
  apply not_true_is_false. rewrite isNullValue_spec. intros [E|[E|E]]; try done.
  injection E as E. unfold str_of_int in E.
  destruct z as [|p|p]; simpl in E; try done.
  destruct (Pos.to_uint p) eqn:U; try done.
  by apply DecimalPos.Unsigned.to_uint_nonnil in U.
Qed.

End Decimal.

(** ** Prefixes of a text that can be encoded *)

Lemma utf8_encode_inv (c : N) (s : pystr) (d : pybytes) :
  utf8_encode (c :: s) = Ok d →
  ∃ b bs, utf8_encode_cp c = Ok b ∧ utf8_encode s = Ok bs ∧ d = b ++ bs.
Proof.
  simpl. destruct (utf8_encode_cp c) as [b|], (utf8_encode s) as [bs|]; try done.
  intros [= <-]. by exists b, bs.
Qed.

(** A prefix of a text that can be encoded can be encoded. *)
Lemma utf8_encode_take (n : nat) (s : pystr) (d : pybytes) :
  utf8_encode s = Ok d → ∃ d', utf8_encode (take n s) = Ok d'.
Proof.
  revert n d. induction s as [|c s IH]; intros n d.
  - destruct n; by eexists.
  - intros (b & bs & C & S & E)%utf8_encode_inv. destruct n as [|n]; [by eexists|].
    destruct (IH n bs S) as [d' D]. exists (b ++ d'). simpl. simpl in D. by rewrite C, D.
Qed.

(** ** The compressed descriptor *)

Section Compressed.
Variables zlib bz2 : CompressMod.

(** The header and the module of a field that the constructor made. *)
Lemma IRCompressedField_mode (name : pystr) (mode dv : pyval) (f : field) :
  IRCompressedField name mode dv = Ok f →
  ∃ h M, header f = Ok h ∧ getCompressMod zlib bz2 f = Ok (Some M)
         ∧ ((compressMode f = Ok COMPRESS_MODE_ZLIB ∧ h = header_zlib ∧ M = zlib)
            ∨ (compressMode f = Ok COMPRESS_MODE_BZ2 ∧ h = header_bz2 ∧ M = bz2)).
Proof.
  intros F. destruct (IRCompressedField_attrs _ _ _ _ F) as (_ & _ & _ & _ & [[C E]|[C E]]).
  - exists header_zlib, zlib. unfold header, getCompressMod, compressMode.
    rewrite C, E. split_and!; try done. by left.
  - exists header_bz2, bz2. unfold header, getCompressMod, compressMode.
    rewrite C, E. split_and!; try done. by right.
Qed.

Lemma getCompressMod_attr_Some (f : field) (M : CompressMod) :
  getCompressMod zlib bz2 f = Ok (Some M) → getCompressMod_attr zlib bz2 f = Ok M.
Proof. unfold getCompressMod_attr. by intros ->. Qed.

(** A byte string bears the header when it begins with it. *)
Lemma bears_header_bytes (f : field) (h b : pybytes) :
  header f = Ok h → bears_header f (PyBytes b) = Ok (bool_decide (begins_with h b)).
Proof. unfold bears_header. by intros ->. Qed.

Lemma isEmptyString_bytes (b : pybytes) : isEmptyString (PyBytes b) = bool_decide (b = []).
Proof. by destruct b. Qed.

Lemma isEmptyString_text (s : pystr) : s ≠ [] → isEmptyString (PyStr s) = false.
Proof. by destruct s. Qed.

(** The empty inputs are the empty text and the empty byte string. *)
Lemma isEmptyString_spec (v : pyval) :
  isEmptyString v = true ↔ v = PyStr [] ∨ v = PyBytes [].
Proof.
  unfold isEmptyString. rewrite py_in_eq. simpl.
  destruct v as [|b|z|[|c s]|[|c b]|i c]; simpl;
    (split; [intros E; try done; by auto | by intros [E|E]]).
Qed.


(** The header test returns for every value that can be brought to
    bytes: a prefix of a text that can be encoded can be encoded. *)
Lemma bears_header_returns (f : field) (h : pybytes) (v : pyval) (b : pybytes) :
  header f = Ok h → tobytes v = Ok b → ∃ x, bears_header f v = Ok x.
Proof.
  intros Hh T. unfold bears_header. rewrite Hh. simpl.
  destruct v as [| | |s|d|i s]; try done; simpl.
  - destruct (utf8_encode_take (length h) s b T) as [d' D]. simpl in D. rewrite D.
    by eexists.
  - by eexists.
  - destruct (utf8_encode_take (length h) s b T) as [d' D]. simpl in D. rewrite D.
    by eexists.
Qed.




Lemma toStorage_compress (f : field) (M : CompressMod) (v : pyval) (data : pybytes) :
  getCompressMod zlib bz2 f = Ok (Some M) →
  isEmptyString v = false → tobytes v = Ok data → bears_header f v = Ok false →
  _toStorage zlib bz2 f v = PyBytes <$> compress M data 9.
Proof.
  intros G%getCompressMod_attr_Some E T B. unfold _toStorage.
  by rewrite E, T, B, G.
Qed.

Lemma toStorage_unchanged (f : field) (v : pyval) (data : pybytes) :
  isEmptyString v = false → tobytes v = Ok data → bears_header f v = Ok true →
  _toStorage zlib bz2 f v = Ok v.
Proof. intros E T B. unfold _toStorage. by rewrite E, T, B. Qed.

Lemma fromStorage_decompress (f : field) (M : CompressMod) (v : pyval) :
  getCompressMod zlib bz2 f = Ok (Some M) →
  isEmptyString v = false → isStringy v = true → bears_header f v = Ok true →
  _fromStorage zlib bz2 f v = call_decompress M v.
Proof.
  intros G%getCompressMod_attr_Some E S B. unfold _fromStorage.
  by rewrite E, S, B, G.
Qed.




(** A field in zlib mode never calls [bz2]. *)
Lemma zlib_mode_frame (f : field) (v : pyval) (bz2' : CompressMod) :
  compressMode f = Ok COMPRESS_MODE_ZLIB →
  _toStorage zlib bz2 f v = _toStorage zlib bz2' f v
  ∧ _fromStorage zlib bz2 f v = _fromStorage zlib bz2' f v.
Proof.
  intros C. unfold _toStorage, _fromStorage, getCompressMod_attr, getCompressMod.
  by rewrite C.
Qed.

End Compressed.



(** ** Round trips through storage *)

Section RoundTrip.
Context `{UnicodeData}.
Variables zlib bz2 : CompressMod.

Lemma IRField_str (name : pystr) (hi : pyval) (f : field) :
  IRField name (Obj_type py_str) hi = Ok f →
  a_convert f = Some Method__convertStr ∧ a_toStorage f = None.
Proof. by intros [= <-]. Qed.

Lemma IRField_int (name : pystr) (hi : pyval) (f : field) :
  IRField name (Obj_type py_int) hi = Ok f →
  a_convert f = None ∧ a_toStorage f = None ∧ a_valueType f = Some (Obj_type py_int).
Proof. by intros [= <-]. Qed.

Lemma IRField_bool_storage (name : pystr) (hi : pyval) (f : field) :
  IRField name (Obj_type py_bool) hi = Ok f → a_toStorage f = None.
Proof. by intros [= <-]. Qed.

Lemma str_round_trip (name : pystr) (hi : pyval) (f : field) (s : pystr) :
  IRField name (Obj_type py_str) hi = Ok f →
  toStorage f (PyStr s) ≫= convert f = Ok (PyStr s).
Proof.
  intros [C S]%IRField_str. unfold toStorage, convert. by rewrite C, S.
Qed.

Lemma int_round_trip (name : pystr) (hi : pyval) (f : field) (z : Z) :
  IRField name (Obj_type py_int) hi = Ok f →
  toStorage f (PyInt z) ≫= convert f = Ok (PyInt z).
Proof.
  intros (C & S & V)%IRField_int. unfold toStorage, convert. rewrite C, S. simpl.
  unfold IRField_convert, valueType. rewrite str_of_int_not_null, V. simpl.
  by rewrite int_of_str_of_int.
Qed.

Lemma bool_round_trip (name : pystr) (hi : pyval) (f : field) (b : bool) :
  IRField name (Obj_type py_bool) hi = Ok f →
  toStorage f (PyBool b) ≫= convert f = Ok (PyBool b).
Proof.
  intros F. pose proof (IRField_bool _ _ _ F) as C.
  pose proof (IRField_bool_storage _ _ _ F) as S.
  unfold toStorage, convert. rewrite C, S. by destruct b.
Qed.

Lemma begins_with_nonempty (h b : pybytes) : h ≠ [] → begins_with h b → b ≠ [].
Proof. intros N B ->. unfold begins_with in B. rewrite take_nil in B. done. Qed.

Lemma compressed_round_trip (name : pystr) (mode dv : pyval) (f : field)
    (h : pybytes) (M : CompressMod) (b c : pybytes) :
  IRCompressedField name mode dv = Ok f →
  header f = Ok h → getCompressMod zlib bz2 f = Ok (Some M) →
  b ≠ [] → ¬ begins_with h b →
  compress M b 9 = Ok c → begins_with h c → decompress M c = Ok b →
  _toStorage zlib bz2 f (PyBytes b) ≫= _fromStorage zlib bz2 f = Ok (PyBytes b).
Proof.
  intros F Hh G NE NB C B D.
  rewrite (toStorage_compress zlib bz2 f M (PyBytes b) b); try done.
  - rewrite C. simpl.
    rewrite (fromStorage_decompress zlib bz2 f M); try done.
    + simpl. by rewrite D.
    + rewrite isEmptyString_bytes. apply bool_decide_eq_false.
      apply (begins_with_nonempty h); [|done].
      destruct (IRCompressedField_mode zlib bz2 _ _ _ _ F) as (h' & M' & Hh' & G' & E).
      assert (h' = h) as -> by congruence.
      by destruct E as [(_ & -> & _)|(_ & -> & _)].
    + rewrite (bears_header_bytes f h) by done. by rewrite bool_decide_eq_true_2.
  - rewrite isEmptyString_bytes. by apply bool_decide_eq_false.
  - rewrite (bears_header_bytes f h) by done. by rewrite bool_decide_eq_false_2.
Qed.

Lemma bearing_round_trip (f : field) (h : pybytes) (M : CompressMod) (b : pybytes) :
  header f = Ok h → getCompressMod zlib bz2 f = Ok (Some M) →
  b ≠ [] → begins_with h b →
  _toStorage zlib bz2 f (PyBytes b) ≫= _fromStorage zlib bz2 f
  = PyBytes <$> decompress M b.
Proof.
  intros Hh G NE B.
  assert (isEmptyString (PyBytes b) = false) as E.
  { rewrite isEmptyString_bytes. by apply bool_decide_eq_false. }
  assert (bears_header f (PyBytes b) = Ok true) as T.
  { rewrite (bears_header_bytes f h) by done. by rewrite bool_decide_eq_true_2. }
  rewrite (toStorage_unchanged zlib bz2 f (PyBytes b) b); try done. simpl.
  by rewrite (fromStorage_decompress zlib bz2 f M).
Qed.

(** C1 (amended) — storing and converting back returns the value: for a
    field of type [str], [int] or [bool] and every value of that type;
    and for a compressed field and every non-empty byte string [b] that
    does not begin with the header of the mode, when the module compresses
    [b] at level 9 to bytes [c] that begin with the header and
    decompresses [c] to [b].  A byte string that begins with the header is
    stored as it is and comes back as what the module decompresses it to;
    the empty byte string comes back as the empty text. *)
Theorem C1_round_trips (name : pystr) :
  (∀ hi f s, IRField name (Obj_type py_str) hi = Ok f →
             toStorage f (PyStr s) ≫= convert f = Ok (PyStr s))
  ∧ (∀ hi f z, IRField name (Obj_type py_int) hi = Ok f →
               toStorage f (PyInt z) ≫= convert f = Ok (PyInt z))
  ∧ (∀ hi f b, IRField name (Obj_type py_bool) hi = Ok f →
               toStorage f (PyBool b) ≫= convert f = Ok (PyBool b))
  ∧ (∀ mode dv f h M,
       IRCompressedField name mode dv = Ok f →
       header f = Ok h → getCompressMod zlib bz2 f = Ok (Some M) →
       (∀ b c, b ≠ [] → ¬ begins_with h b →
               compress M b 9 = Ok c → begins_with h c → decompress M c = Ok b →
               _toStorage zlib bz2 f (PyBytes b) ≫= _fromStorage zlib bz2 f
               = Ok (PyBytes b))
       ∧ (∀ b, b ≠ [] → begins_with h b →
               _toStorage zlib bz2 f (PyBytes b) ≫= _fromStorage zlib bz2 f
               = PyBytes <$> decompress M b)
       ∧ _toStorage zlib bz2 f (PyBytes []) ≫= _fromStorage zlib bz2 f
         = Ok (PyStr (ustr ""))).
Proof.
  split_and!.
  - intros hi f s. apply str_round_trip.
  - intros hi f z. apply int_round_trip.
  - intros hi f b. apply bool_round_trip.
  - intros mode dv f h M F Hh G. split_and!.
    + intros b c. by apply (compressed_round_trip name mode dv).
    + intros b. by apply bearing_round_trip.
    + done.
Qed.

End RoundTrip.

(** C1, as stated, fails on the compressed field: [zlib.compress(b'a', 9)]
    begins with the header, is stored as it is, and comes back as [b'a'];
    and the empty byte string comes back as the empty text, which is not
    equal to it. *)
Lemma C1_counterexample :
  IRCompressedField (ustr "value") (PyStr COMPRESS_MODE_ZLIB) irNull = Ok zlib_field
  ∧ begins_with header_zlib compressed_a
  ∧ _toStorage Zlib.reference uncalled zlib_field (PyBytes compressed_a)
    = Ok (PyBytes compressed_a)
  ∧ _fromStorage Zlib.reference uncalled zlib_field (PyBytes compressed_a)
    = Ok (PyBytes (bstr "a"))
  ∧ py_eq (PyBytes (bstr "a")) (PyBytes compressed_a) = false
  ∧ (_toStorage Zlib.reference uncalled zlib_field (PyBytes [])
       ≫= _fromStorage Zlib.reference uncalled zlib_field) = Ok (PyStr (ustr ""))
  ∧ py_eq (PyStr (ustr "")) (PyBytes []) = false.
Proof. split_and!; vm_compute; reflexivity. Qed.

Lemma C1_round_trips_witness :
  IRCompressedField (ustr "value") (PyStr COMPRESS_MODE_ZLIB) irNull = Ok zlib_field
  ∧ hello_world ≠ []
  ∧ ¬ begins_with header_zlib hello_world
  ∧ Zlib.compress hello_world 9 = Ok compressed_hello
  ∧ begins_with header_zlib compressed_hello
  ∧ Zlib.decompress compressed_hello = Ok hello_world
  ∧ (_toStorage Zlib.reference uncalled zlib_field (PyBytes hello_world)
       ≫= _fromStorage Zlib.reference uncalled zlib_field) = Ok (PyBytes hello_world)
  ∧ (@toStorage ascii_only int_field (PyInt (-120)) ≫= @convert ascii_only int_field)
    = Ok (PyInt (-120)).
Proof.
  pose proof (@C1_round_trips ascii_only Zlib.reference uncalled (ustr "value")) as (_ & _ & _ & T).
  pose proof (@C1_round_trips ascii_only Zlib.reference uncalled (ustr "count")) as (_ & I & _).
  destruct (T (PyStr COMPRESS_MODE_ZLIB) irNull zlib_field header_zlib Zlib.reference
              eq_refl eq_refl eq_refl) as (R & _).
  assert (hello_world ≠ []) as NE by discriminate.
  assert (¬ begins_with header_zlib hello_world) as NB by discriminate.
  assert (Zlib.compress hello_world 9 = Ok compressed_hello) as C by (vm_compute; reflexivity).
  assert (begins_with header_zlib compressed_hello) as B by reflexivity.
  assert (Zlib.decompress compressed_hello = Ok hello_world) as D by (vm_compute; reflexivity).
  split_and!; [reflexivity|exact NE|exact NB|exact C|exact B|exact D|..].
  - exact (R hello_world compressed_hello NE NB C B D).
  - exact (I (PyBool false) int_field (-120)%Z eq_refl).
Defined.

(** ** Dirty fields and reload of records with links *)

Module LinkFacts.
Import Links.

Lemma assoc_cons {A} (name n : string) (a : A) (l : list (string * A)) :
  assoc name ((n, a) :: l) = if String.eqb n name then Some a else assoc name l.
Proof. done. Qed.

Lemma assoc_None {A} (name : string) (l : list (string * A)) :
  assoc name l = None ↔ name ∉ map fst l.
Proof.
  induction l as [|[n a] l IH]; simpl.
  - split; [intros _; apply not_elem_of_nil|done].
  - rewrite not_elem_of_cons. destruct (String.eqb_spec n name) as [->|NE].
    + split; [done|]. by intros [? _].
    + rewrite IH. split; [by split|by intros [_ ?]].
Qed.

(** Looking at the fields changes nothing. *)
Lemma updated_state (names : list string) (r : record) : snd (updated names r) = r.
Proof.
  induction names as [|n names IH]; simpl; [done|].
  unfold op_bind, peek. simpl. destruct (updated names r) as [rest r'] eqn:U.
  simpl in *. by subst.
Qed.

(** A name is reported when it is asked for and its two values differ. *)
Lemma updated_assoc (names : list string) (r : record) (name : string) :
  assoc name (fst (updated names r)) =
    let b := default unset (assoc name (r_baseline r)) in
    let c := default unset (assoc name (r_current r)) in
    if bool_decide (name ∈ names) && negb (same_value b c) then Some (b, c) else None.
Proof.
  induction names as [|n names IH]; simpl; [done|].
  unfold op_bind, peek. simpl.
  pose proof (updated_state names r) as S.
  destruct (updated names r) as [rest r'] eqn:U. simpl in *. subst r'.
  destruct (String.eqb_spec n name) as [->|NE].
  - rewrite bool_decide_eq_true_2 by (apply elem_of_cons; by left). simpl.
    destruct (same_value _ _) eqn:V; simpl.
    + rewrite IH. by rewrite andb_false_r.
    + by rewrite String.eqb_refl.
  - assert (bool_decide (name ∈ n :: names) = bool_decide (name ∈ names)) as ->.
    { apply bool_decide_ext. rewrite elem_of_cons.
      split; [intros [E|E]; [by subst|done]|by right]. }
    destruct (same_value (default unset (assoc n _)) _); simpl; [done|].
    by rewrite (proj2 (String.eqb_neq n name) NE).
Qed.

(** C8 — [getUpdatedFields] leaves the record as it found it, so every
    link handle of the record, and what [isFetched] says of it, is the
    same after the call as before; a second call returns what the first
    returned; and a link field is reported exactly when the ids of its
    baseline and of its current handle differ, whatever the handles have
    resolved. *)
Theorem C8_diff_has_no_effect (r : record) :
  snd (getUpdatedFields r) = r
  ∧ (∀ name h, assoc name (r_current r) = Some (VLink h) →
       ∃ h', assoc name (r_current (snd (getUpdatedFields r))) = Some (VLink h')
             ∧ h' = h ∧ isFetched h' = isFetched h)
  ∧ fst (getUpdatedFields (snd (getUpdatedFields r))) = fst (getUpdatedFields r)
  ∧ (∀ name hb hc,
       assoc name (r_baseline r) = Some (VLink hb) →
       assoc name (r_current r) = Some (VLink hc) →
       assoc name (fst (getUpdatedFields r)) =
         if bool_decide (link_id hb = link_id hc) then None
         else Some (VLink hb, VLink hc)).
Proof.
  assert (snd (getUpdatedFields r) = r) as S by apply updated_state.
  split_and!.
  - done.
  - intros name h E. exists h. by rewrite S.
  - by rewrite S.
  - intros name hb hc B C. unfold getUpdatedFields. rewrite updated_assoc.
    rewrite B, C. simpl.
    rewrite bool_decide_eq_true_2.
    + by destruct (bool_decide (link_id hb = link_id hc)).
    + apply dec_stable. intros NI. apply assoc_None in NI. congruence.
Qed.

(** Reload, field by field. *)
Section ReloadFields.
Variable reload_record : record → option (record * report).
Variable cascadeObjects : bool.

Lemma reload_fields_cons (fields : list (string * sval)) (n : string) (old : value)
    (current : list (string * value)) :
  reload_fields reload_record cascadeObjects fields ((n, old) :: current) =
    sv ← assoc n fields;
    '(new, changed) ← reload_value reload_record cascadeObjects sv old;
    '(rest, changes) ← reload_fields reload_record cascadeObjects fields current;
    Some ((n, new) :: rest,
          if changed : bool then (n, (old, new)) :: changes else changes).
Proof. done. Qed.

Lemma reload_fields_unreported (fields : list (string * sval))
    (current current' : list (string * value)) (changes : report) (name : string) :
  reload_fields reload_record cascadeObjects fields current = Some (current', changes) →
  assoc name current = None → assoc name changes = None.
Proof.
  revert current' changes.
  induction current as [|[n old] current IH]; intros current' changes R A.
  - by injection R as <- <-.
  - rewrite reload_fields_cons in R. rewrite assoc_cons in A.
    destruct (String.eqb n name) eqn:E; [done|].
    destruct (assoc n fields) as [sv|]; [|done]. simpl in R.
    destruct (reload_value _ _ sv old) as [[new changed]|]; [|done]. simpl in R.
    destruct (reload_fields _ _ fields current) as [[rest rep]|]; [|done].
    injection R as <- <-. specialize (IH rest rep eq_refl A).
    destruct changed; [|done]. by rewrite assoc_cons, E.
Qed.

(** What a reload does to the field [name]: its stored value decides
    its new value, and it is reported exactly when it changed. *)
Lemma reload_fields_assoc (fields : list (string * sval))
    (current current' : list (string * value)) (changes : report)
    (name : string) (old : value) :
  NoDup (map fst current) →
  reload_fields reload_record cascadeObjects fields current = Some (current', changes) →
  assoc name current = Some old →
  ∃ sv new changed,
    assoc name fields = Some sv
    ∧ reload_value reload_record cascadeObjects sv old = Some (new, changed)
    ∧ assoc name current' = Some new
    ∧ assoc name changes = if changed : bool then Some (old, new) else None.
Proof.
  revert current' changes.
  induction current as [|[n v] current IH]; intros current' changes ND R A; [done|].
  rewrite reload_fields_cons in R. rewrite assoc_cons in A.
  apply NoDup_cons in ND as [NI ND].
  destruct (assoc n fields) as [sv|] eqn:F; [|done]. simpl in R.
  destruct (reload_value _ _ sv v) as [[new changed]|] eqn:V; [|done]. simpl in R.
  destruct (reload_fields _ _ fields current) as [[rest rep]|] eqn:RF; [|done].
  injection R as <- <-.
  destruct (String.eqb_spec n name) as [->|NE].
  - injection A as <-. exists sv, new, changed.
    rewrite assoc_cons, String.eqb_refl. split_and!; try done.
    destruct changed.
    + by rewrite assoc_cons, String.eqb_refl.
    + apply (reload_fields_unreported fields current rest); [done|].
      by apply assoc_None.
  - destruct (IH rest rep ND eq_refl A) as (sv' & new' & changed' & ? & ? & ? & ?).
    exists sv', new', changed'. apply String.eqb_neq in NE.
    rewrite assoc_cons, NE. split_and!; try done.
    destruct changed; [|done]. by rewrite assoc_cons, NE.
Qed.
End ReloadFields.

Lemma reload_Record (st : store) (c : bool) (i : option rid)
    (current baseline : list (string * value)) :
  reload st c (Record i current baseline) =
    i ← i;
    fields ← st !! i;
    '(current', changes) ← reload_fields (reload st c) c fields current;
    Some (Record (Some i) current' current', changes).
Proof. done. Qed.

(** The reload of a record, seen from one of its fields. *)
Lemma reload_assoc (st : store) (c : bool) (r r' : record) (changes : report)
    (name : string) (old : value) :
  NoDup (map fst (r_current r)) →
  reload st c r = Some (r', changes) →
  assoc name (r_current r) = Some old →
  ∃ i fields sv new changed,
    r_id r = Some i ∧ st !! i = Some fields ∧ assoc name fields = Some sv
    ∧ reload_value (reload st c) c sv old = Some (new, changed)
    ∧ assoc name (r_current r') = Some new
    ∧ assoc name changes = if changed : bool then Some (old, new) else None.
Proof.
  destruct r as [i current baseline]. intros ND R A. simpl in ND, A.
  rewrite reload_Record in R.
  destruct i as [i|]; [|done]. simpl in R.
  destruct (st !! i) as [fields|] eqn:S; [|done]. simpl in R.
  destruct (reload_fields _ c fields current) as [[current' rep]|] eqn:RF; [|done].
  injection R as <- <-.
  destruct (reload_fields_assoc _ _ _ _ _ _ _ _ ND RF A) as (sv & new & changed & ?).
  by exists i, fields, sv, new, changed.
Qed.

(** From a reload [R] of a record with the field [A]: how the field was
    reloaded ([V]), its new value ([C]) and its report ([Rep]), with the
    record's id, stored fields and stored value identified with the ones in
    the context. *)
Ltac link_reloaded ND R A V C Rep :=
  let i' := fresh "i" in
  let fields' := fresh "fields" in
  let sv := fresh "sv" in
  destruct (reload_assoc _ _ _ _ _ _ _ ND R A)
    as (i' & fields' & sv & ? & ? & ? & ? & ? & V & C & Rep);
  repeat match goal with
         | E : ?x = Some ?a, E' : ?x = Some ?b |- _ =>
             assert (a = b) by congruence; subst a; clear E
         end.

(** What a reload that returns does to a link field [name] that is stored
    with the id it has in memory: resolved to a target whose own reload
    reports changes, it is not reported without [cascadeObjects] and is
    reported with it; not resolved, it stays so. *)
Lemma reload_link_field (st : store) (r : record) (name : string) (h : handle)
    (i : rid) (fields : list (string * sval)) (t : option rid) :
  NoDup (map fst (r_current r)) →
  assoc name (r_current r) = Some (VLink h) →
  r_id r = Some i → st !! i = Some fields → assoc name fields = Some (SLink t) →
  (∀ target target' nested,
     h_obj h = Some target → link_id h = t →
     reload st true target = Some (target', nested) → nested ≠ [] →
     (∀ r' changes, reload st false r = Some (r', changes) →
        assoc name changes = None ∧ assoc name (r_current r') = Some (VLink h))
     ∧ (∀ r' changes, reload st true r = Some (r', changes) →
        ∃ h', h_obj h' = Some target' ∧ link_id h' = r_id target'
              ∧ isFetched h' = isFetched h
              ∧ assoc name changes = Some (VLink h, VLink h')
              ∧ assoc name (r_current r') = Some (VLink h')))
  ∧ (h_obj h = None → isFetched h = false →
     ∀ c r' changes, reload st c r = Some (r', changes) →
       ∃ h', assoc name (r_current r') = Some (VLink h')
             ∧ h_obj h' = None ∧ isFetched h' = false).
Proof.
  intros ND A I S F. split.
  - intros target target' nested O L R NE. split.
    + intros r' changes R'. link_reloaded ND R' A V C Rep.
      destruct h as [hi o fl]. simpl in O. subst o.
      simpl in V. rewrite bool_decide_eq_true_2 in V by done.
      injection V as <- <-. done.
    + intros r' changes R'. link_reloaded ND R' A V C Rep.
      destruct h as [hi o fl]. simpl in O. subst o.
      simpl in V. rewrite bool_decide_eq_true_2 in V by done.
      rewrite R in V. simpl in V. injection V as <- <-.
      exists (Handle hi (Some target') fl).
      rewrite bool_decide_eq_false_2 in Rep by done. done.
  - intros O U c r' changes R'. link_reloaded ND R' A V C Rep.
    destruct h as [hi o fl]. simpl in O, U. subst o fl. simpl in V.
    destruct (bool_decide (hi = t)); injection V as <- <-; by eexists.
Qed.

Lemma assoc_elem_of {A} (name : string) (l : list (string * A)) (a : A) :
  assoc name l = Some a → (name, a) ∈ l.
Proof.
  induction l as [|[n x] l IH]; simpl; [done|].
  destruct (String.eqb_spec n name) as [->|NE].
  - intros [= ->]. apply elem_of_cons. by left.
  - intros E. apply elem_of_cons. right. by apply IH.
Qed.

(** A field whose stored value differs is reported, and takes the stored
    value. *)
Lemma differs_reload_value (reload_record : record → option (record * report))
    (c : bool) (sv : sval) (old : value) :
  differs old sv = true → reload_value reload_record c sv old = Some (of_stored sv, true).
Proof.
  unfold differs. intros D. destruct sv as [x|t], old as [y|[hi o fl]]; simpl in *;
    try done; try by rewrite D.
  apply negb_true_iff, bool_decide_eq_false in D.
  by rewrite bool_decide_eq_false_2.
Qed.

(** Reload returns, field by field, when the store holds every field and
    the reload of every resolved target returns. *)
Lemma reload_fields_returns (reload_record : record → option (record * report))
    (c : bool) (fields : list (string * sval)) (current : list (string * value)) :
  (∀ n v, (n, v) ∈ current → is_Some (assoc n fields)) →
  (∀ n hi target fetched, (n, VLink (Handle hi (Some target) fetched)) ∈ current →
     is_Some (reload_record target)) →
  is_Some (reload_fields reload_record c fields current).
Proof.
  induction current as [|[n old] current IH]; intros F T; [by eexists|].
  rewrite reload_fields_cons.
  destruct (F n old) as [sv ->]; [apply elem_of_cons; by left|]. simpl.
  assert (is_Some (reload_value reload_record c sv old)) as [[new changed] ->].
  { destruct sv as [x|t], old as [y|[hi [target|] fl]]; simpl; try by eexists.
    - destruct (bool_decide _); [|by eexists]. destruct c; [|by eexists].
      destruct (T n hi target fl) as [[target' changes] ->]; [apply elem_of_cons; by left|].
      by eexists.
    - destruct (bool_decide _); by eexists. }
  simpl. destruct IH as [[rest changes] ->].
  - intros n' v E. apply (F n' v). apply elem_of_cons. by right.
  - intros n' hi target fl E. apply (T n' hi target fl). apply elem_of_cons. by right.
  - by eexists.
Qed.

(** The reload of a complete record returns, under either flag. *)
Lemma reload_returns (st : store) (c : bool) (r : record) :
  complete st r → is_Some (reload st c r).
Proof.
  induction 1 as [i current baseline fields S ND F T IH].
  rewrite reload_Record. simpl. rewrite S. simpl.
  destruct (reload_fields_returns (reload st c) c fields current F IH) as [[current' changes] ->].
  by eexists.
Qed.

Lemma complete_inv (st : store) (r : record) :
  complete st r →
  NoDup (map fst (r_current r))
  ∧ ∀ n hi target fetched,
      assoc n (r_current r) = Some (VLink (Handle hi (Some target) fetched)) →
      complete st target.
Proof.
  destruct 1 as [i current baseline fields S ND F T]. simpl. split; [done|].
  intros n hi target fl A. apply (T n hi target fl). by apply assoc_elem_of.
Qed.

(** C9 — reload of a holder [r] that is complete in the store, and whose
    link field [name] is stored with the id [t].  When the link is resolved
    to a target, has the id it is stored with, and a field [m] of the
    target has another value in the store than in memory:
    [reload(cascadeObjects=False)] returns, does not report the link and
    leaves the handle with its cached target, while
    [reload(cascadeObjects=True)] returns, reloads the target, whose report
    has the field [m] with its old and its stored value, and reports the
    link with the old handle and the handle of the reloaded target.  A
    link that is not resolved is not resolved after the reload, under
    either flag; the reload returns, and reports the link exactly when its
    id differs from the stored one. *)
Theorem C9_reload_links (st : store) (r : record) (name : string) (h : handle)
    (i : rid) (fields : list (string * sval)) (t : option rid) :
  complete st r →
  assoc name (r_current r) = Some (VLink h) →
  r_id r = Some i → st !! i = Some fields → assoc name fields = Some (SLink t) →
  (∀ target j tfields m old sv,
     h_obj h = Some target → link_id h = t →
     r_id target = Some j → st !! j = Some tfields →
     assoc m (r_current target) = Some old → assoc m tfields = Some sv →
     differs old sv = true →
     (∃ r' changes,
        reload st false r = Some (r', changes)
        ∧ assoc name changes = None
        ∧ assoc name (r_current r') = Some (VLink h))
     ∧ (∃ r' changes target' nested h',
          reload st true r = Some (r', changes)
          ∧ reload st true target = Some (target', nested)
          ∧ assoc m nested = Some (old, of_stored sv)
          ∧ assoc m (r_current target') = Some (of_stored sv)
          ∧ h_obj h' = Some target' ∧ link_id h' = r_id target'
          ∧ isFetched h' = isFetched h
          ∧ assoc name changes = Some (VLink h, VLink h')
          ∧ assoc name (r_current r') = Some (VLink h')))
  ∧ (h_obj h = None → isFetched h = false →
     ∀ c, ∃ r' changes h',
       reload st c r = Some (r', changes)
       ∧ assoc name (r_current r') = Some (VLink h')
       ∧ h_obj h' = None ∧ isFetched h' = false
       ∧ assoc name changes =
           if bool_decide (link_id h = t) then None else Some (VLink h, VLink h')).
Proof.
  intros Cr A I S F. destruct (complete_inv st r Cr) as [ND Targets].
  pose proof (reload_link_field st r name h i fields t ND A I S F) as [Resolved Unresolved].
  split.
  - intros target j tfields m old sv O L J St Am Fm D.
    assert (complete st target) as Ct.
    { destruct h as [hi o fl]. simpl in O. subst o. by apply (Targets name hi target fl). }
    destruct (complete_inv st target Ct) as [NDt _].
    destruct (reload_returns st true target Ct) as [[target' nested] Rt].
    destruct (reload_assoc st true target target' nested m old NDt Rt Am)
      as (j' & tfields' & sv' & new & changed & J' & St' & Fm' & V & Cm & Rep).
    assert (j' = j) as -> by congruence.
    assert (tfields' = tfields) as -> by congruence.
    assert (sv' = sv) as -> by congruence.
    rewrite (differs_reload_value _ _ _ _ D) in V. injection V as <- <-.
    assert (nested ≠ []) as NE by (by intros ->).
    destruct (Resolved target target' nested O L Rt NE) as [Plain Cascade].
    split.
    + destruct (reload_returns st false r Cr) as [[r' changes] R].
      exists r', changes. split; [done|]. by apply Plain.
    + destruct (reload_returns st true r Cr) as [[r' changes] R].
      destruct (Cascade r' changes R) as (h' & ? & ? & ? & ? & ?).
      by exists r', changes, target', nested, h'.
  - intros O U c. destruct (reload_returns st c r Cr) as [[r' changes] R].
    destruct (reload_assoc st c r r' changes name (VLink h) ND R A)
      as (i' & fields' & sv' & new & changed & I' & S' & F' & V & C & Rep).
    assert (i' = i) as -> by congruence.
    assert (fields' = fields) as -> by congruence.
    assert (sv' = SLink t) as -> by congruence.
    destruct h as [hi o fl]. simpl in O, U. subst o fl. simpl in V. simpl.
    destruct (bool_decide (hi = t)); injection V as <- <-; by eexists r', changes, _.
Qed.

Lemma complete_ref_edited : complete test_store ref_edited.
Proof.
  apply (complete_record test_store ref1 _ _ ref1_fields); [reflexivity| | |].
  - apply (bool_decide_unpack (NoDup (map fst (r_current ref_edited)))). vm_compute. exact I.
  - intros n v E. vm_compute in E.
    repeat (apply elem_of_cons in E as [E|E]; [injection E as -> ->; by eexists|]).
    by apply elem_of_nil in E.
  - intros n hi target fl E. vm_compute in E.
    repeat (apply elem_of_cons in E as [E|E]; [discriminate|]).
    by apply elem_of_nil in E.
Qed.

Lemma complete_main_resolved : complete test_store main_resolved.
Proof.
  apply (complete_record test_store main1 _ _ main1_fields); [reflexivity| | |].
  - apply (bool_decide_unpack (NoDup (map fst (r_current main_resolved)))). vm_compute. exact I.
  - intros n v E. vm_compute in E.
    repeat (apply elem_of_cons in E as [E|E]; [injection E as -> ->; by eexists|]).
    by apply elem_of_nil in E.
  - intros n hi target fl E. vm_compute in E.
    repeat (apply elem_of_cons in E as [E|E];
            [first [discriminate | injection E as _ _ -> _; exact complete_ref_edited]|]).
    by apply elem_of_nil in E.
Qed.

Lemma C9_reload_links_witness :
  complete test_store main_resolved
  ∧ assoc "other" (r_current main_resolved) = Some (VLink other_resolved)
  ∧ test_store !! main1 = Some main1_fields
  ∧ h_obj other_resolved = Some ref_edited
  ∧ test_store !! ref1 = Some ref1_fields
  ∧ assoc "intVal" (r_current ref_edited) = Some (VScalar (PyInt 99))
  ∧ assoc "intVal" ref1_fields = Some (SScalar (PyInt 5))
  ∧ differs (VScalar (PyInt 99)) (SScalar (PyInt 5)) = true
  ∧ (∃ r', reload test_store false main_resolved = Some (r', [])
           ∧ assoc "other" (r_current r') = Some (VLink other_resolved))
  ∧ (∃ r' changes h',
       reload test_store true main_resolved = Some (r', changes)
       ∧ assoc "other" changes = Some (VLink other_resolved, VLink h')
       ∧ h_obj h' = Some (load ref1 ref1_fields)).
Proof.
  pose proof complete_main_resolved as Cr.
  destruct (C9_reload_links test_store main_resolved "other" other_resolved main1
              main1_fields (Some ref1) Cr eq_refl eq_refl eq_refl eq_refl) as [Resolved _].
  destruct (Resolved ref_edited ref1 ref1_fields "intVal"%string (VScalar (PyInt 99))
              (SScalar (PyInt 5)) eq_refl eq_refl eq_refl eq_refl eq_refl eq_refl eq_refl)
    as [Plain Cascade].
  split_and!; [exact Cr|reflexivity..| |].
  - destruct Plain as (r' & changes & R & Rep & C).
    assert (changes = []) as ->.
    { vm_compute in R. by injection R as _ <-. }
    by exists r'.
  - destruct Cascade as (r' & changes & target' & nested & h' & R & Rt & _ & _ & O & _ & _ & Rep & _).
    exists r', changes, h'. split_and!; [done..|].
    rewrite O. f_equal. vm_compute in Rt. by injection Rt as <- _.
Defined.

(** The first read of a link resolves it; looking for updated fields
    does not. *)
Example read_resolves_diff_does_not :
  assoc "other" (r_current main_loaded) = Some (VLink (assign_id ref1))
  ∧ getUpdatedFields main_loaded = ([], main_loaded)
  ∧ (∃ h, assoc "other" (r_current (snd (read_field test_store "other" main_loaded)))
          = Some (VLink h) ∧ isFetched h = true)
  ∧ fst (getUpdatedFields main_resolved) = [].
Proof.
  split_and!; try (vm_compute; reflexivity).
  eexists. split; vm_compute; reflexivity.
Qed.

End LinkFacts.

(** * Further properties of the descriptors *)

(** ** The model of [pickle] on pickles of the library *)

Example pickle_dumps :
  Pickle.dumps PyNone 2 = Ok [x80; x02; x4e; x2e]
  ∧ Pickle.dumps (PyBool true) 2 = Ok [x80; x02; x88; x2e]
  ∧ Pickle.dumps (PyInt 5) 2 = Ok [x80; x02; x4b; x05; x2e]
  ∧ Pickle.dumps (PyInt 65535) 2 = Ok [x80; x02; x4d; xff; xff; x2e]
  ∧ Pickle.dumps (PyInt (-1)) 2 = Ok [x80; x02; x4a; xff; xff; xff; xff; x2e]
  ∧ Pickle.dumps (PyInt 2147483648) 2
    = Ok [x80; x02; x8a; x05; x00; x00; x00; x80; x00; x2e]
  ∧ Pickle.dumps (PyInt (-2147483649)) 2
    = Ok [x80; x02; x8a; x05; xff; xff; xff; x7f; xff; x2e].
Proof. split_and!; vm_compute; reflexivity. Qed.

(** A pickle is read back; octets after STOP are ignored; data that ends
    before STOP, or holds no value at STOP, is an error. *)
Example pickle_loads :
  Pickle.loads [x80; x02; x4e; x2e] = Ok PyNone
  ∧ Pickle.loads [x80; x02; x89; x2e] = Ok (PyBool false)
  ∧ Pickle.loads [x80; x02; x4d; xff; xff; x2e] = Ok (PyInt 65535)
  ∧ Pickle.loads [x80; x02; x4a; xff; xff; xff; xff; x2e] = Ok (PyInt (-1))
  ∧ Pickle.loads [x80; x02; x8a; x05; xff; xff; xff; x7f; xff; x2e]
    = Ok (PyInt (-2147483649))
  ∧ Pickle.loads ([x80; x02; x4e; x2e] ++ bstr "junk") = Ok PyNone
  ∧ Pickle.loads [x80; x02; x4e] = Raise ValueError
  ∧ Pickle.loads [x2e] = Raise ValueError
  ∧ Pickle.loads [] = Raise ValueError.
Proof. split_and!; vm_compute; reflexivity. Qed.

(** ** Which fields can be indexed *)

Lemma py_is_False (v : pyval) : py_is v (PyBool false) = true ↔ v = PyBool false.
Proof. destruct v as [|[]| | | |]; simpl; split; try done. Qed.

(** X3 — a field made by [IRField] is indexable or it is not, and it is
    not exactly when its declared type is not [str] and is [bytes], [None],
    [float], or a type whose attribute [CAN_INDEX] is [False]
    (fields/__init__.py, lines 74-98). *)
Theorem IRField_CAN_INDEX (name : pystr) (vt : pyobj) (hi : pyval) (f : field) :
  IRField name vt hi = Ok f →
  (CAN_INDEX f = PyBool false
   ↔ is_type Ty_str vt = false
     ∧ (is_type Ty_bytes vt = true ∨ eq_None vt = true ∨ is_type Ty_float vt = true
        ∨ getattr_CAN_INDEX vt = PyBool false))
  ∧ (CAN_INDEX f = PyBool true ∨ CAN_INDEX f = PyBool false).
Proof.
  unfold IRField, IRField___init__. intros F.
  destruct (is_type Ty_str vt) eqn:S.
  { injection F as <-. split; [|by left]. split; [done|]. by intros [? _]. }
  destruct (is_type Ty_bytes vt) eqn:B.
  { injection F as <-. split; [|by right]. split; [|done]. intros _. split; [done|]. by left. }
  destruct (eq_None vt) eqn:N.
  { assert (CAN_INDEX f = PyBool false) as E.
    { destruct (py_is (getattr_CAN_INDEX vt) (PyBool false)), (is_type Ty_float vt);
        by injection F as <-. }
    split; [|by right]. split; [|done]. intros _. split; [done|]. right. by left. }
  destruct (isinstance_type vt); simpl in F; [|done].
  rewrite <- (py_is_False (getattr_CAN_INDEX vt)).
  destruct (is_type Ty_bool vt), (py_is (getattr_CAN_INDEX vt) (PyBool false)),
    (is_type Ty_float vt); injection F as <-; cbn; intuition (try discriminate; auto).
Qed.

Lemma IRField_CAN_INDEX_witness :
  IRField (ustr "data") (Obj_type py_bytes) (PyBool false) = Ok bytes_field
  ∧ CAN_INDEX bytes_field = PyBool false.
Proof.
  split; [reflexivity|].
  apply (IRField_CAN_INDEX (ustr "data") (Obj_type py_bytes) (PyBool false) _ eq_refl).
  split; [reflexivity|]. left. reflexivity.
Defined.

(** ** Fields of type [None], [str] and [bytes]; null through storage *)

Section Untyped.
Context `{UnicodeData}.

Lemma IRField_None (name : pystr) (vt : pyobj) (hi : pyval) (f : field) :
  IRField name vt hi = Ok f → eq_None vt = true →
  a_convert f = Some Method__noConvert ∧ a_toStorage f = Some Method__noConvert
  ∧ a_CAN_INDEX f = Some (PyBool false).
Proof.
  unfold IRField, IRField___init__. intros F N.
  assert (is_type Ty_str vt = false ∧ is_type Ty_bytes vt = false) as [S B].
  { by destruct vt. }
  rewrite S, B, N in F.
  destruct (py_is (getattr_CAN_INDEX vt) (PyBool false)), (is_type Ty_float vt);
    by injection F as <-.
Qed.

(** X4 — a field declared with [valueType=None] converts nothing: every
    value is stored as it is and converted to itself, the empty text and
    the null value included, and the field is not indexable
    (fields/__init__.py, lines 81-84, 163-164). *)
Theorem IRField_None_keeps_values (name : pystr) (vt : pyobj) (hi : pyval) (f : field)
    (v : pyval) :
  IRField name vt hi = Ok f → eq_None vt = true →
  toStorage f v = Ok v ∧ convert f v = Ok v
  ∧ toStorage f v ≫= convert f = Ok v
  ∧ CAN_INDEX f = PyBool false.
Proof.
  intros F N. destruct (IRField_None _ _ _ _ F N) as (C & S & I).
  unfold toStorage, convert, CAN_INDEX. by rewrite C, S, I.
Qed.

Lemma IRField_text (name : pystr) (vt : pyobj) (hi : pyval) (f : field) :
  IRField name vt hi = Ok f → is_type Ty_str vt = true →
  a_convert f = Some Method__convertStr ∧ a_toStorage f = None.
Proof.
  unfold IRField, IRField___init__. intros F S. rewrite S in F. by injection F as <-.
Qed.

Lemma to_unicode_text (v r : pyval) : to_unicode v = Ok r → ∃ s, r = PyStr s.
Proof.
  destruct v as [|b|z|s|b|i c]; simpl; try (intros [= <-]; by eexists).
  destruct (utf8_decode b); simpl; [|done]. intros [= <-]. by eexists.
Qed.

(** X5 — a field of type [str] has no null: a text converts to itself,
    the empty text included; a null value converts to the empty text; and
    whatever [convert] returns is a plain text, never an instance of
    [IRNullType] and never equal to [irNull]
    (fields/__init__.py, lines 74-76, 145-146). *)
Theorem IRField_str_has_no_null (name : pystr) (vt : pyobj) (hi : pyval) (f : field) :
  IRField name vt hi = Ok f → is_type Ty_str vt = true →
  (∀ s, convert f (PyStr s) = Ok (PyStr s))
  ∧ (∀ n, isinstance_IRNullType n = true → convert f n = Ok (PyStr (ustr "")))
  ∧ (∀ v r, convert f v = Ok r →
       (∃ s, r = PyStr s) ∧ isinstance_IRNullType r = false ∧ py_eq r irNull = false).
Proof.
  intros F S. destruct (IRField_text _ _ _ _ F S) as [C _].
  unfold convert. rewrite C. simpl. unfold _convertStr. split_and!.
  - done.
  - by intros [| | | | |i c].
  - intros v r [s ->]%to_unicode_text. split_and!; [by eexists|done..].
Qed.

Lemma IRField_bytes (name : pystr) (vt : pyobj) (hi : pyval) (f : field) :
  IRField name vt hi = Ok f → is_type Ty_str vt = false → is_type Ty_bytes vt = true →
  a_convert f = Some Method__convertBytes ∧ a_toStorage f = None.
Proof.
  unfold IRField, IRField___init__. intros F S B. rewrite S, B in F. by injection F as <-.
Qed.

Lemma IRField_typed_storage (name : pystr) (vt : pyobj) (hi : pyval) (f : field) :
  IRField name vt hi = Ok f → eq_None vt = false → a_toStorage f = None.
Proof.
  unfold IRField, IRField___init__. intros F N. rewrite N in F.
  repeat match type of F with
         | context [if ?c then _ else _] => destruct c; simpl in F
         end; try done; by injection F as <-.
Qed.

(** X6 — what becomes of a null value that is stored and converted back:
    a field of type [str] returns the empty text and a field of type
    [bytes] the empty byte string, so the null value is lost; a field of
    type [None] returns the very value; every other field returns [irNull]
    (fields/__init__.py, lines 102-121, 214-215). *)
Theorem null_through_storage (name : pystr) (vt : pyobj) (hi : pyval) (f : field)
    (n : pyval) :
  IRField name vt hi = Ok f → isinstance_IRNullType n = true →
  toStorage f n ≫= convert f =
    if is_type Ty_str vt then Ok (PyStr (ustr ""))
    else if is_type Ty_bytes vt then Ok (PyBytes (bstr ""))
    else if eq_None vt then Ok n
    else Ok irNull.
Proof.
  intros F I. destruct n as [| | | | |i c]; try done.
  destruct (is_type Ty_str vt) eqn:S.
  { destruct (IRField_text _ _ _ _ F S) as [C T]. unfold toStorage, convert. by rewrite C, T. }
  destruct (is_type Ty_bytes vt) eqn:B.
  { destruct (IRField_bytes _ _ _ _ F S B) as [C T]. unfold toStorage, convert. by rewrite C, T. }
  destruct (eq_None vt) eqn:N.
  { destruct (IRField_None _ _ _ _ F N) as (C & T & _). unfold toStorage, convert.
    by rewrite C, T. }
  destruct (IRField_typed _ _ _ _ F S B N) as [V C].
  pose proof (IRField_typed_storage _ _ _ _ F N) as T.
  unfold toStorage, convert. rewrite C, T. by destruct (is_type Ty_bool vt).
Qed.

(** X7 — the conversion of a field of type [bool] needs a text: a value
    that is neither text nor bytes ([None], a number, a boolean) raises
    [AttributeError]; so converting a converted boolean again raises
    (fields/__init__.py, lines 166-176). *)
Theorem bool_convert_needs_text (name : pystr) (hi : pyval) (f : field) :
  IRField name (Obj_type py_bool) hi = Ok f →
  (∀ v, isStringy v = false → convert f v = Raise AttributeError)
  ∧ (∀ v b, convert f v = Ok (PyBool b) → convert f v ≫= convert f = Raise AttributeError).
Proof.
  intros F. apply IRField_bool in F.
  assert (∀ v, isStringy v = false → convert f v = Raise AttributeError) as E.
  { intros v S. unfold convert. rewrite F. simpl. by apply convertBool_not_stringy. }
  split; [done|]. intros v b ->. simpl. by apply E.
Qed.

Lemma ascii_lower_length (s t : pystr) :
  map ascii_lower s = map ascii_lower t → (s = [] ↔ t = []).
Proof. destruct s, t; simpl; split; done. Qed.

Lemma isNullValue_text (s : pystr) : _isNullValue (PyStr s) = bool_decide (s = []).
Proof. by destruct s. Qed.

(** X8 — the conversion of a field of type [bool] ignores the case of
    ASCII letters: two ASCII texts that are equal up to case convert to the
    same result, value or exception (fields/__init__.py, lines 166-176). *)
Theorem bool_convert_ignores_case (name : pystr) (hi : pyval) (f : field) (s t : pystr) :
  IRField name (Obj_type py_bool) hi = Ok f →
  forallb is_ascii s = true → forallb is_ascii t = true →
  map ascii_lower s = map ascii_lower t →
  convert f (PyStr s) = convert f (PyStr t).
Proof.
  intros F As At E. apply IRField_bool in F. unfold convert. rewrite F. simpl.
  unfold _convertBool. rewrite !isNullValue_text.
  rewrite (bool_decide_ext _ _ (ascii_lower_length s t E)).
  destruct (bool_decide (t = [])); [done|].
  simpl. unfold str_lower. by rewrite As, At, E.
Qed.

Lemma py_int_new_int (v r : pyval) : py_int_new v = Ok r → ∃ z, r = PyInt z.
Proof.
  destruct v as [|b|z|s|b|i c]; simpl; try done; try (intros [= <-]; by eexists).
  - destruct (int_of_str s); simpl; [|done]. intros [= <-]. by eexists.
  - destruct (int_of_ascii _); simpl; [|done]. intros [= <-]. by eexists.
  - destruct (int_of_str c); simpl; [|done]. intros [= <-]. by eexists.
Qed.

(** X9 — converting a converted value again changes nothing, for a
    field of type [str], [bytes], [None] or [int]: whatever [convert]
    returns, it returns for its own result; the boolean field is the
    exception (fields/__init__.py, lines 113-121, 145-164). *)
Theorem convert_idempotent (name : pystr) (vt : pyobj) (hi : pyval) (f : field)
    (v r : pyval) :
  IRField name vt hi = Ok f →
  is_type Ty_str vt = true ∨ is_type Ty_bytes vt = true ∨ eq_None vt = true
  ∨ vt = Obj_type py_int →
  convert f v = Ok r → convert f r = Ok r.
Proof.
  intros F Ty.
  destruct (is_type Ty_str vt) eqn:S.
  { destruct (IRField_text _ _ _ _ F S) as [C _]. unfold convert. rewrite C. simpl.
    unfold _convertStr. by intros [s ->]%to_unicode_text. }
  destruct (is_type Ty_bytes vt) eqn:B.
  { destruct (IRField_bytes _ _ _ _ F S B) as [C _]. unfold convert. rewrite C. simpl.
    unfold _convertBytes. destruct (tobytes v); simpl; [|done]. by intros [= <-]. }
  destruct (eq_None vt) eqn:N.
  { destruct (IRField_None _ _ _ _ F N) as (C & _). unfold convert. rewrite C. simpl.
    unfold _noConvert. by intros [= <-]. }
  destruct Ty as [?|[?|[?| ->]]]; try done.
  destruct (IRField_typed _ _ _ _ F S B N) as [V C]. simpl in C.
  unfold convert. rewrite C. unfold IRField_convert, valueType. rewrite V. simpl.
  destruct (_isNullValue v); [by intros [= <-]|].
  by intros [z ->]%py_int_new_int.
Qed.

End Untyped.

Lemma convert_idempotent_witness :
  IRField (ustr "count") (Obj_type (@py_int ascii_only)) (PyBool false) = Ok int_field
  ∧ @convert ascii_only int_field (PyStr (ustr " 42 ")) = Ok (PyInt 42)
  ∧ @convert ascii_only int_field (PyInt 42) = Ok (PyInt 42).
Proof.
  split; [reflexivity|]. split; [reflexivity|].
  apply (@convert_idempotent ascii_only (ustr "count") (Obj_type (@py_int ascii_only))
           (PyBool false) int_field (PyStr (ustr " 42 ")) (PyInt 42) eq_refl).
  - right. right. right. reflexivity.
  - reflexivity.
Defined.

Lemma IRField_None_keeps_values_witness :
  IRField (ustr "raw") (Obj_val PyNone) (PyBool false) = Ok raw_field
  ∧ eq_None (Obj_val PyNone) = true
  ∧ @convert ascii_only raw_field (PyStr (ustr "")) = Ok (PyStr (ustr ""))
  ∧ @toStorage ascii_only raw_field (PyInt 7) = Ok (PyInt 7).
Proof.
  split; [reflexivity|]. split; [reflexivity|]. split.
  - apply (@IRField_None_keeps_values ascii_only (ustr "raw") (Obj_val PyNone) (PyBool false)
             raw_field (PyStr (ustr "")) eq_refl eq_refl).
  - apply (@IRField_None_keeps_values ascii_only (ustr "raw") (Obj_val PyNone) (PyBool false)
             raw_field (PyInt 7) eq_refl eq_refl).
Defined.

Lemma IRField_str_has_no_null_witness :
  IRField (ustr "name") (Obj_type py_str) (PyBool false) = Ok str_field
  ∧ is_type Ty_str (Obj_type py_str) = true
  ∧ @convert ascii_only str_field (PyStr (ustr "")) = Ok (PyStr (ustr ""))
  ∧ @convert ascii_only str_field irNull = Ok (PyStr (ustr "")).
Proof.
  split; [reflexivity|]. split; [reflexivity|].
  destruct (@IRField_str_has_no_null ascii_only (ustr "name") (Obj_type py_str) (PyBool false)
              str_field eq_refl eq_refl) as (T & N & _).
  split; [apply T|by apply N].
Defined.

Lemma null_through_storage_witness :
  IRField (ustr "count") (Obj_type (@py_int ascii_only)) (PyBool false) = Ok int_field
  ∧ isinstance_IRNullType irNull = true
  ∧ (@toStorage ascii_only int_field irNull ≫= @convert ascii_only int_field) = Ok irNull.
Proof.
  split; [reflexivity|]. split; [reflexivity|].
  apply (@null_through_storage ascii_only (ustr "count") (Obj_type (@py_int ascii_only))
           (PyBool false) int_field irNull eq_refl eq_refl).
Defined.

Lemma bool_convert_needs_text_witness :
  IRField (ustr "flag") (Obj_type py_bool) (PyBool false) = Ok bool_field
  ∧ @convert ascii_only bool_field (PyBool true) = Raise AttributeError
  ∧ (@convert ascii_only bool_field (PyStr (ustr "true")) ≫= @convert ascii_only bool_field)
    = Raise AttributeError.
Proof.
  split; [reflexivity|].
  destruct (@bool_convert_needs_text ascii_only (ustr "flag") (PyBool false) bool_field
              eq_refl) as [T I].
  split; [by apply T|]. by apply (I _ true).
Defined.

Lemma bool_convert_ignores_case_witness :
  IRField (ustr "flag") (Obj_type py_bool) (PyBool false) = Ok bool_field
  ∧ forallb is_ascii (ustr "True") = true ∧ forallb is_ascii (ustr "tRUE") = true
  ∧ map ascii_lower (ustr "True") = map ascii_lower (ustr "tRUE")
  ∧ @convert ascii_only bool_field (PyStr (ustr "True"))
    = @convert ascii_only bool_field (PyStr (ustr "tRUE")).
Proof.
  split_and!; [reflexivity..|].
  apply (@bool_convert_ignores_case ascii_only (ustr "flag") (PyBool false) bool_field
           (ustr "True") (ustr "tRUE") eq_refl eq_refl eq_refl eq_refl).
Defined.
(** ** UTF-8 *)

Lemma byte_of_to_N (b : byte) : byte_of_N (Byte.to_N b) = b.
Proof. unfold byte_of_N. by rewrite Byte.of_to_N. Qed.

Lemma utf8_cont_spec (b : byte) (c : N) :
  utf8_cont b = Some c → (0x80 <= Byte.to_N b < 0xC0)%N ∧ c = (Byte.to_N b - 0x80)%N.
Proof.
  unfold utf8_cont. destruct (N.leb_spec 0x80 (Byte.to_N b)); simpl; [|done].
  destruct (N.ltb_spec (Byte.to_N b) 0xC0); [|done]. intros [= <-]. lia.
Qed.

Ltac ltb_cases :=
  repeat match goal with
         | |- context [(?a <? ?b)%N] => destruct (N.ltb_spec a b); try lia
         | |- context [(?a <=? ?b)%N] => destruct (N.leb_spec a b); try lia
         end.

Lemma utf8_encode_cp_1 (n0 : N) :
  (n0 < 0x80)%N → utf8_encode_cp n0 = Ok [byte_of_N n0].
Proof. intros L. unfold utf8_encode_cp. by ltb_cases. Qed.

Lemma utf8_encode_cp_2 (n0 n1 : N) :
  (0xC2 <= n0 < 0xE0)%N → (0x80 <= n1 < 0xC0)%N →
  utf8_encode_cp ((n0 - 0xC0) * 64 + (n1 - 0x80)) = Ok [byte_of_N n0; byte_of_N n1].
Proof.
  intros L0 L1. unfold utf8_encode_cp.
  set (c := ((n0 - 0xC0) * 64 + (n1 - 0x80))%N).
  assert (c / 64 = n0 - 0xC0)%N as D.
  { symmetry. apply (N.div_unique c 64 _ (n1 - 0x80)); unfold c; lia. }
  assert (c mod 64 = n1 - 0x80)%N as M.
  { symmetry. apply (N.mod_unique c 64 (n0 - 0xC0)); unfold c; lia. }
  rewrite D, M. assert (0x80 <= c < 0x800)%N by (unfold c; lia).
  ltb_cases. repeat f_equal; lia.
Qed.

Lemma utf8_encode_cp_3 (n0 n1 n2 : N) :
  (0xE0 <= n0 < 0xF0)%N → (0x80 <= n1 < 0xC0)%N → (0x80 <= n2 < 0xC0)%N →
  let c := ((n0 - 0xE0) * 4096 + (n1 - 0x80) * 64 + (n2 - 0x80))%N in
  ((c <? 0x800) || (0xD800 <=? c) && (c <? 0xE000))%N = false →
  utf8_encode_cp c = Ok [byte_of_N n0; byte_of_N n1; byte_of_N n2].
Proof.
  intros L0 L1 L2 c V. unfold utf8_encode_cp.
  assert (c / 4096 = n0 - 0xE0)%N as D.
  { symmetry. apply (N.div_unique c 4096 _ ((n1 - 0x80) * 64 + (n2 - 0x80))); unfold c; lia. }
  assert (c / 64 = (n0 - 0xE0) * 64 + (n1 - 0x80))%N as D1.
  { symmetry. apply (N.div_unique c 64 _ (n2 - 0x80)); unfold c; lia. }
  assert ((c / 64) mod 64 = n1 - 0x80)%N as M1.
  { rewrite D1. symmetry. apply (N.mod_unique _ 64 (n0 - 0xE0)); lia. }
  assert (c mod 64 = n2 - 0x80)%N as M.
  { symmetry. apply (N.mod_unique c 64 ((n0 - 0xE0) * 64 + (n1 - 0x80))); unfold c; lia. }
  rewrite D, M1, M. assert (c < 0x10000)%N by (unfold c; lia).
  apply orb_false_iff in V as [V1 V2]. apply N.ltb_ge in V1. rewrite V2.
  ltb_cases. repeat f_equal; lia.
Qed.

Lemma utf8_encode_cp_4 (n0 n1 n2 n3 : N) :
  (0xF0 <= n0 < 0xF5)%N → (0x80 <= n1 < 0xC0)%N → (0x80 <= n2 < 0xC0)%N →
  (0x80 <= n3 < 0xC0)%N →
  let c := ((n0 - 0xF0) * 262144 + (n1 - 0x80) * 4096 + (n2 - 0x80) * 64 + (n3 - 0x80))%N in
  ((c <? 0x10000) || (0x110000 <=? c))%N = false →
  utf8_encode_cp c = Ok [byte_of_N n0; byte_of_N n1; byte_of_N n2; byte_of_N n3].
Proof.
  intros L0 L1 L2 L3 c V. unfold utf8_encode_cp.
  assert (c / 262144 = n0 - 0xF0)%N as D.
  { symmetry.
    apply (N.div_unique c 262144 _ ((n1 - 0x80) * 4096 + (n2 - 0x80) * 64 + (n3 - 0x80)));
      unfold c; lia. }
  assert (c / 4096 = (n0 - 0xF0) * 64 + (n1 - 0x80))%N as D2.
  { symmetry. apply (N.div_unique c 4096 _ ((n2 - 0x80) * 64 + (n3 - 0x80))); unfold c; lia. }
  assert ((c / 4096) mod 64 = n1 - 0x80)%N as M2.
  { rewrite D2. symmetry. apply (N.mod_unique _ 64 (n0 - 0xF0)); lia. }
  assert (c / 64 = (n0 - 0xF0) * 4096 + (n1 - 0x80) * 64 + (n2 - 0x80))%N as D1.
  { symmetry. apply (N.div_unique c 64 _ (n3 - 0x80)); unfold c; lia. }
  assert ((c / 64) mod 64 = n2 - 0x80)%N as M1.
  { rewrite D1. symmetry. apply (N.mod_unique _ 64 ((n0 - 0xF0) * 64 + (n1 - 0x80))); lia. }
  assert (c mod 64 = n3 - 0x80)%N as M.
  { symmetry.
    apply (N.mod_unique c 64 ((n0 - 0xF0) * 4096 + (n1 - 0x80) * 64 + (n2 - 0x80)));
      unfold c; lia. }
  rewrite D, M2, M1, M.
  apply orb_false_iff in V as [V1 V2]. apply N.ltb_ge in V1. apply N.leb_gt in V2.
  ltb_cases. repeat f_equal; lia.
Qed.

Lemma utf8_encode_cons (c : N) (s : pystr) (b bs : pybytes) :
  utf8_encode_cp c = Ok b → utf8_encode s = Ok bs → utf8_encode (c :: s) = Ok (b ++ bs).
Proof. simpl. by intros -> ->. Qed.

(** What decodes, encodes to the bytes it was decoded from. *)
Lemma utf8_encode_decode (b : pybytes) (s : pystr) :
  utf8_decode b = Ok s → utf8_encode s = Ok b.
Proof.
  remember (length b) as n eqn:Len. revert b s Len.
  induction n as [n IH] using lt_wf_ind. intros b s Len.
  destruct b as [|b0 r0]; [by intros [= <-]|].
  cbn [utf8_decode]. cbv zeta.
  pose proof (Byte.to_N_bounded b0) as Bound.
  destruct (N.ltb_spec (Byte.to_N b0) 0x80).
  { destruct (utf8_decode r0) as [s'|] eqn:D; simpl; [|done]. intros [= <-].
    rewrite (utf8_encode_cons _ _ [b0] r0); [done| |].
    - rewrite utf8_encode_cp_1 by done. by rewrite byte_of_to_N.
    - apply (IH (length r0)); [simpl in Len; lia|done..]. }
  destruct (N.ltb_spec (Byte.to_N b0) 0xC2); [done|].
  destruct (N.ltb_spec (Byte.to_N b0) 0xE0).
  { destruct r0 as [|b1 r1]; [done|].
    destruct (utf8_cont b1) as [c1|] eqn:C1; [|done].
    apply utf8_cont_spec in C1 as [B1 ->].
    destruct (utf8_decode r1) as [s'|] eqn:D; simpl; [|done]. intros [= <-].
    rewrite (utf8_encode_cons _ _ [b0; b1] r1); [done| |].
    - rewrite utf8_encode_cp_2 by lia. by rewrite !byte_of_to_N.
    - apply (IH (length r1)); [simpl in Len; lia|done..]. }
  destruct (N.ltb_spec (Byte.to_N b0) 0xF0).
  { destruct r0 as [|b1 [|b2 r2]]; [done..|].
    destruct (utf8_cont b1) as [c1|] eqn:C1; [|done].
    destruct (utf8_cont b2) as [c2|] eqn:C2; [|done].
    apply utf8_cont_spec in C1 as [B1 ->]. apply utf8_cont_spec in C2 as [B2 ->].
    destruct (_ || _) eqn:V; [done|].
    destruct (utf8_decode r2) as [s'|] eqn:D; simpl; [|done]. intros [= <-].
    rewrite (utf8_encode_cons _ _ [b0; b1; b2] r2); [done| |].
    - rewrite utf8_encode_cp_3 by (done || lia). by rewrite !byte_of_to_N.
    - apply (IH (length r2)); [simpl in Len; lia|done..]. }
  destruct (N.ltb_spec (Byte.to_N b0) 0xF5); [|done].
  destruct r0 as [|b1 [|b2 [|b3 r3]]]; [done..|].
  destruct (utf8_cont b1) as [c1|] eqn:C1; [|done].
  destruct (utf8_cont b2) as [c2|] eqn:C2; [|done].
  destruct (utf8_cont b3) as [c3|] eqn:C3; [|done].
  apply utf8_cont_spec in C1 as [B1 ->]. apply utf8_cont_spec in C2 as [B2 ->].
  apply utf8_cont_spec in C3 as [B3 ->].
  destruct (_ || _) eqn:V; [done|].
  destruct (utf8_decode r3) as [s'|] eqn:D; simpl; [|done]. intros [= <-].
  rewrite (utf8_encode_cons _ _ [b0; b1; b2; b3] r3); [done| |].
  - rewrite utf8_encode_cp_4 by (done || lia). by rewrite !byte_of_to_N.
  - apply (IH (length r3)); [simpl in Len; lia|done..].
Qed.

Lemma to_N_byte_of_N (n : N) : (n < 256)%N → Byte.to_N (byte_of_N n) = n.
Proof.
  intros L. unfold byte_of_N. destruct (Byte.of_N n) as [b|] eqn:E; simpl.
  - by apply Byte.to_of_N.
  - apply Byte.of_N_None_iff in E. lia.
Qed.

(** The encoding of a code point: one octet below [0x80], or several of
    which the first is [0xC0] or above. *)
Lemma utf8_encode_cp_shape (c : N) (b : pybytes) :
  utf8_encode_cp c = Ok b →
  (∃ x, b = [x] ∧ (Byte.to_N x < 0x80)%N)
  ∨ (∃ x y r, b = x :: y :: r ∧ (0xC0 <= Byte.to_N x)%N).
Proof.
  unfold utf8_encode_cp.
  destruct (N.ltb_spec c 0x80).
  { intros [= <-]. left. eexists. split; [done|]. rewrite to_N_byte_of_N; lia. }
  destruct (N.ltb_spec c 0x800).
  { intros [= <-]. right. do 3 eexists. split; [done|].
    assert (c / 64 < 32)%N as Q by (apply N.Div0.div_lt_upper_bound; lia).
    revert Q. generalize (c / 64)%N as q. intros q Q.
    rewrite to_N_byte_of_N; lia. }
  destruct (N.ltb_spec c 0x10000).
  { destruct (_ && _); [done|]. intros [= <-]. right. do 3 eexists. split; [done|].
    assert (c / 4096 < 16)%N as Q by (apply N.Div0.div_lt_upper_bound; lia).
    revert Q. generalize (c / 4096)%N as q. intros q Q.
    rewrite to_N_byte_of_N; lia. }
  destruct (N.ltb_spec c 0x110000); [|done].
  intros [= <-]. right. do 3 eexists. split; [done|].
  assert (c / 262144 < 5)%N as Q by (apply N.Div0.div_lt_upper_bound; lia).
  revert Q. generalize (c / 262144)%N as q. intros q Q.
  rewrite to_N_byte_of_N; lia.
Qed.

(** No text encodes to the header of [zlib]. *)
Lemma utf8_encode_not_header (s : pystr) : utf8_encode s ≠ Ok header_zlib.
Proof.
  destruct s as [|c s]; [done|]. intros (b & bs & C & S & E)%utf8_encode_inv.
  apply utf8_encode_cp_shape in C as [(x & -> & X)|(x & y & r & -> & X)].
  - injection E as <- <-.
    destruct s as [|c' s]; [done|]. apply utf8_encode_inv in S as (b & bs & C & S & E).
    apply utf8_encode_cp_shape in C as [(x & -> & X')|(x & y & r & -> & X')].
    + injection E as <- _. vm_compute in X'. done.
    + done.
  - injection E as <- _. vm_compute in X. by apply X.
Qed.

Section BytesField.
Context `{UnicodeData}.

(** X10 — a field of type [bytes] stores the text that the bytes decode
    to (UTF-8) and converts by encoding: a byte string that is valid UTF-8
    comes back as it was; one that is not cannot be stored, [toStorage]
    raises the decoding error.  The field has no null: [convert] returns a
    byte string as it is, the empty one included
    (fields/__init__.py, lines 77-80, 102-111, 148-149). *)
Theorem bytes_field_round_trip (name : pystr) (vt : pyobj) (hi : pyval) (f : field) :
  IRField name vt hi = Ok f → is_type Ty_str vt = false → is_type Ty_bytes vt = true →
  (∀ b s, utf8_decode b = Ok s →
          toStorage f (PyBytes b) = Ok (PyStr s)
          ∧ toStorage f (PyBytes b) ≫= convert f = Ok (PyBytes b))
  ∧ (∀ b e, utf8_decode b = Raise e → toStorage f (PyBytes b) = Raise e)
  ∧ (∀ b, convert f (PyBytes b) = Ok (PyBytes b))
  ∧ (∀ s, convert f (PyStr s) = PyBytes <$> utf8_encode s).
Proof.
  intros F S B. destruct (IRField_bytes _ _ _ _ F S B) as [C T].
  unfold toStorage, convert. rewrite C, T. simpl.
  unfold IRField_toStorage, _convertBytes. simpl. split_and!; try done.
  - intros b s D. rewrite D. simpl. split; [done|]. by rewrite (utf8_encode_decode b s D).
  - by intros b e ->.
Qed.

End BytesField.

Lemma bytes_field_round_trip_witness :
  IRField (ustr "data") (Obj_type py_bytes) (PyBool false) = Ok bytes_field
  ∧ utf8_decode [xc3; xa9; x21] = Ok [233; 33]%N
  ∧ (@toStorage ascii_only bytes_field (PyBytes [xc3; xa9; x21])
       ≫= @convert ascii_only bytes_field) = Ok (PyBytes [xc3; xa9; x21])
  ∧ @toStorage ascii_only bytes_field (PyBytes [xff]) = Raise UnicodeDecodeError.
Proof.
  split; [reflexivity|]. split; [reflexivity|].
  destruct (@bytes_field_round_trip ascii_only (ustr "data") (Obj_type py_bytes) (PyBool false)
              bytes_field eq_refl eq_refl eq_refl) as (R & E & _).
  split; [by apply (R _ [233; 33]%N)|by apply E].
Defined.

(** ** The index value *)

Lemma hex_digit_is_hex (n : N) : (n < 16)%N → is_hex (MD5.hex_digit n) = true.
Proof.
  intros L. unfold is_hex, MD5.hex_digit. apply orb_true_iff.
  destruct (N.ltb_spec n 10); [left|right]; apply andb_true_iff; split; apply N.leb_le; lia.
Qed.

Lemma word_bytes_octets (w : N) : Forall (λ b, (b < 256)%N) (MD5.word_bytes w).
Proof. unfold MD5.word_bytes. repeat constructor; by apply N.mod_lt. Qed.

Lemma digest_octets (msg : pybytes) :
  length (MD5.digest msg) = 16%nat ∧ Forall (λ b, (b < 256)%N) (MD5.digest msg).
Proof.
  unfold MD5.digest. destruct (MD5.blocks _ _ _) as [[[A B] C] D]. split; [done|].
  rewrite !Forall_app. split_and!; apply word_bytes_octets.
Qed.

Lemma hexdigest_shape (msg : pybytes) :
  length (MD5.hexdigest msg) = 32%nat ∧ Forall (λ c, is_hex c = true) (MD5.hexdigest msg).
Proof.
  unfold MD5.hexdigest. destruct (digest_octets msg) as [L O].
  revert L O. generalize (MD5.digest msg) as d. intros d L O. split.
  - assert (∀ l : list N,
              length (flat_map (λ b, [MD5.hex_digit (b / 16); MD5.hex_digit (b mod 16)]%N) l)
              = (2 * length l)%nat) as Len.
    { induction l as [|b l IH]; simpl; lia. }
    rewrite Len, L. done.
  - clear L. induction O as [|b d Hb O IH]; simpl; [done|].
    repeat constructor; [apply hex_digit_is_hex..|done].
    + apply N.Div0.div_lt_upper_bound. lia.
    + by apply N.mod_lt.
Qed.

Section IndexMore.
Context `{UnicodeData}.

(** X11 — the index value of a field with a hashed index, when [toIndex]
    returns: a text of exactly 32 hexadecimal digits ([0]-[9], [a]-[f]),
    however long the value is (fields/__init__.py, lines 123-134). *)
Theorem hashed_index_is_a_digest (f : field) (v r : pyval) :
  isIndexHashed f = true → toIndex f v = Ok r →
  ∃ s, r = PyStr s ∧ length s = 32%nat ∧ Forall (λ c, is_hex c = true) s.
Proof.
  intros Hh. unfold toIndex. rewrite Hh.
  destruct (toStorage f v) as [ret|e]; simpl; [|done].
  destruct (tobytes ret) as [b|e]; simpl; [|done].
  intros [= <-]. exists (MD5.hexdigest b). split; [done|]. apply hexdigest_shape.
Qed.

Lemma IRField_toStorage_attr (name : pystr) (vt : pyobj) (hi : pyval) (f : field) :
  IRField name vt hi = Ok f →
  a_toStorage f = if eq_None vt then Some Method__noConvert else None.
Proof.
  intros F. destruct (eq_None vt) eqn:N.
  - by destruct (IRField_None _ _ _ _ F N) as (_ & S & _).
  - by apply (IRField_typed_storage name vt hi).
Qed.

(** X12 — the index value of a field whose index is not hashed tells
    integers apart: two integers with the same index value are equal.  It
    does not tell an integer from its decimal text: in a field with a type
    both have the same index value (fields/__init__.py, lines 102-134). *)
Theorem plain_index_of_integers (name : pystr) (vt : pyobj) (hi : pyval) (f : field)
    (a b : Z) :
  IRField name vt hi = Ok f → isIndexHashed f = false →
  (toIndex f (PyInt a) = toIndex f (PyInt b) → a = b)
  ∧ (eq_None vt = false → toIndex f (PyInt a) = toIndex f (PyStr (str_of_int a))).
Proof.
  intros F Hh. pose proof (IRField_toStorage_attr _ _ _ _ F) as S.
  unfold toIndex, toStorage. rewrite Hh, S.
  destruct (eq_None vt); simpl.
  - split; [|done]. by intros [= ->].
  - split; [|done]. intros [= E].
    apply (f_equal int_of_str) in E. rewrite !int_of_str_of_int in E. by injection E.
Qed.

End IndexMore.

Lemma hashed_index_is_a_digest_witness :
  @isIndexHashed hashed_field = true
  ∧ @toIndex ascii_only hashed_field (PyStr (ustr "abc"))
    = Ok (PyStr (ustr "900150983cd24fb0d6963f7d28e17f72"))
  ∧ ∃ s, PyStr (ustr "900150983cd24fb0d6963f7d28e17f72") = PyStr s
         ∧ length s = 32%nat ∧ Forall (λ c, is_hex c = true) s.
Proof.
  assert (@toIndex ascii_only hashed_field (PyStr (ustr "abc"))
          = Ok (PyStr (ustr "900150983cd24fb0d6963f7d28e17f72"))) as T
    by (vm_compute; reflexivity).
  split; [reflexivity|]. split; [exact T|].
  exact (@hashed_index_is_a_digest ascii_only hashed_field (PyStr (ustr "abc")) _ eq_refl T).
Defined.

Lemma plain_index_of_integers_witness :
  IRField (ustr "count") (Obj_type (@py_int ascii_only)) (PyBool false) = Ok int_field
  ∧ @isIndexHashed int_field = false
  ∧ @toIndex ascii_only int_field (PyInt 42) = @toIndex ascii_only int_field (PyStr (ustr "42")).
Proof.
  split; [reflexivity|]. split; [reflexivity|].
  apply (@plain_index_of_integers ascii_only (ustr "count") (Obj_type (@py_int ascii_only))
           (PyBool false) int_field 42 42 eq_refl eq_refl).
  reflexivity.
Defined.

(** ** The compressed descriptor: stored values, texts, errors *)

Lemma header_nonempty (name : pystr) (mode dv : pyval) (f : field) (h : pybytes) :
  IRCompressedField name mode dv = Ok f → header f = Ok h → h ≠ [].
Proof.
  intros F. destruct (IRCompressedField_attrs _ _ _ _ F) as (_ & _ & _ & _ & [[_ E]|[_ E]]);
    unfold header; rewrite E; by intros [= <-].
Qed.

Lemma isEmptyString_bytes_nonempty (b : pybytes) : b ≠ [] → isEmptyString (PyBytes b) = false.
Proof. intros NE. rewrite isEmptyString_bytes. by apply bool_decide_eq_false. Qed.

Section CompressedMore.
Variables zlib bz2 : CompressMod.

(** X13 — a stored value is not compressed again: when the module
    writes its header in front of what it compresses, whatever
    [_toStorage] returns for a value is returned unchanged by a second
    [_toStorage] (compressed.py, lines 92-108). *)
Theorem toStorage_idempotent (name : pystr) (mode dv : pyval) (f : field)
    (h : pybytes) (M : CompressMod) (v r : pyval) :
  IRCompressedField name mode dv = Ok f →
  header f = Ok h → getCompressMod zlib bz2 f = Ok (Some M) →
  (∀ b c, tobytes v = Ok b → compress M b 9 = Ok c → begins_with h c) →
  _toStorage zlib bz2 f v = Ok r →
  _toStorage zlib bz2 f r = Ok r.
Proof.
  intros F Hh G W. unfold _toStorage at 1.
  destruct (isEmptyString v) eqn:E; [by intros [= <-]|].
  destruct (tobytes v) as [b|e] eqn:T; simpl; [|done].
  destruct (bears_header f v) as [[]|e] eqn:B; simpl; [| |done].
  - intros [= <-]. by apply (toStorage_unchanged zlib bz2 f v b).
  - rewrite (getCompressMod_attr_Some zlib bz2 f M G). simpl.
    destruct (compress M b 9) as [c|e] eqn:C; simpl; [|done].
    intros [= <-]. pose proof (W b c eq_refl C) as Bc.
    apply (toStorage_unchanged zlib bz2 f (PyBytes c) c); [|done|].
    + apply isEmptyString_bytes_nonempty.
      apply (begins_with_nonempty h); [|done]. by apply (header_nonempty name mode dv f).
    + rewrite (bears_header_bytes f h) by done. by rewrite bool_decide_eq_true_2.
Qed.

(** X14 — the errors of [_toStorage]: a non-empty value that cannot be
    brought to bytes (a number, [None], a text that the encoding refuses)
    is refused with [ValueError], whatever exception the conversion to
    bytes raised; and this is the only exception of [_toStorage] itself:
    any other one is raised by the [compress] of the module on the bytes
    of the value (compressed.py, lines 92-108). *)
Theorem toStorage_errors (name : pystr) (mode dv : pyval) (f : field)
    (M : CompressMod) (v : pyval) :
  IRCompressedField name mode dv = Ok f → getCompressMod zlib bz2 f = Ok (Some M) →
  (∀ e, isEmptyString v = false → tobytes v = Raise e →
        _toStorage zlib bz2 f v = Raise ValueError)
  ∧ (∀ e, _toStorage zlib bz2 f v = Raise e →
          (e = ValueError ∧ isEmptyString v = false ∧ ∃ e', tobytes v = Raise e')
          ∨ (∃ b, tobytes v = Ok b ∧ compress M b 9 = Raise e)).
Proof.
  intros F G. split.
  - intros e E T. unfold _toStorage. by rewrite E, T.
  - intros e. unfold _toStorage.
    destruct (isEmptyString v) eqn:E; [done|].
    destruct (tobytes v) as [b|e'] eqn:T; simpl.
    + destruct (IRCompressedField_mode zlib bz2 _ _ _ _ F) as (h & M' & Hh & _).
      destruct (bears_header_returns f h v b Hh T) as [x ->]. simpl.
      destruct x; [done|].
      rewrite (getCompressMod_attr_Some zlib bz2 f M G). simpl.
      destruct (compress M b 9) as [c|e''] eqn:C; simpl; [done|].
      intros [= ->]. right. by exists b.
    + intros [= <-]. left. split_and!; [done..|]. by exists e'.
Qed.

(** In zlib mode a text never bears the header. *)
Lemma zlib_text_bears_no_header (name : pystr) (mode dv : pyval) (f : field)
    (s : pystr) (data : pybytes) :
  IRCompressedField name mode dv = Ok f → compressMode f = Ok COMPRESS_MODE_ZLIB →
  utf8_encode s = Ok data →
  header f = Ok header_zlib ∧ getCompressMod zlib bz2 f = Ok (Some zlib)
  ∧ bears_header f (PyStr s) = Ok false.
Proof.
  intros F Z E.
  destruct (IRCompressedField_mode zlib bz2 _ _ _ _ F) as (h & M & Hh & G & Mode).
  destruct Mode as [(_ & -> & ->)|(C & _)]; [|by rewrite C in Z].
  split_and!; [done..|].
  unfold bears_header. rewrite Hh. simpl.
  destruct (utf8_encode_take 2 s data E) as [d' D]. simpl in D. rewrite D. simpl.
  f_equal. apply bool_decide_eq_false. intros ->.
  by apply (utf8_encode_not_header (take 2 s)).
Qed.

(** X15 — in zlib mode every non-empty text that can be encoded is
    compressed: no text is taken for a value that is compressed already,
    since no text encodes to the header [b'x\xda']
    (compressed.py, lines 92-108). *)
Theorem zlib_compresses_every_text (name : pystr) (mode dv : pyval) (f : field)
    (s : pystr) (data : pybytes) :
  IRCompressedField name mode dv = Ok f → compressMode f = Ok COMPRESS_MODE_ZLIB →
  s ≠ [] → utf8_encode s = Ok data →
  bears_header f (PyStr s) = Ok false
  ∧ _toStorage zlib bz2 f (PyStr s) = PyBytes <$> compress zlib data 9.
Proof.
  intros F Z NE E.
  destruct (zlib_text_bears_no_header _ _ _ _ s data F Z E) as (Hh & G & B).
  split; [done|].
  apply toStorage_compress; try done. by apply isEmptyString_text.
Qed.

(** X16 — in zlib mode a text does not come back as a text: stored and
    read again it is the byte string of its encoding, which no text is
    equal to (given that the module writes the header and decompresses
    what it compressed) (compressed.py, lines 92-119). *)
Theorem compressed_text_comes_back_as_bytes (name : pystr) (mode dv : pyval) (f : field)
    (s : pystr) (data c : pybytes) :
  IRCompressedField name mode dv = Ok f → compressMode f = Ok COMPRESS_MODE_ZLIB →
  s ≠ [] → utf8_encode s = Ok data →
  compress zlib data 9 = Ok c → begins_with header_zlib c → decompress zlib c = Ok data →
  _toStorage zlib bz2 f (PyStr s) ≫= _fromStorage zlib bz2 f = Ok (PyBytes data)
  ∧ py_eq (PyBytes data) (PyStr s) = false.
Proof.
  intros F Z NE E C Bc D.
  destruct (zlib_text_bears_no_header _ _ _ _ s data F Z E) as (Hh & G & B).
  split; [|done].
  rewrite (toStorage_compress zlib bz2 f zlib (PyStr s) data); try done;
    [|by apply isEmptyString_text].
  rewrite C. simpl.
  rewrite (fromStorage_decompress zlib bz2 f zlib); try done.
  - simpl. by rewrite D.
  - apply isEmptyString_bytes_nonempty. by apply (begins_with_nonempty header_zlib).
  - rewrite (bears_header_bytes f header_zlib) by done. by rewrite bool_decide_eq_true_2.
Qed.

(** X17 — in bz2 mode a text that begins with [BZh9] is stored as it
    is, uncompressed and still a text; reading it back hands the text to
    [bz2.decompress], which refuses a text with [TypeError]
    (compressed.py, lines 104-105, 116-117). *)
Theorem bz2_text_with_header (name : pystr) (mode dv : pyval) (f : field)
    (s : pystr) (data : pybytes) :
  IRCompressedField name mode dv = Ok f → compressMode f = Ok COMPRESS_MODE_BZ2 →
  take 4 s = ustr "BZh9" → utf8_encode s = Ok data →
  _toStorage zlib bz2 f (PyStr s) = Ok (PyStr s)
  ∧ _fromStorage zlib bz2 f (PyStr s) = Raise TypeError.
Proof.
  intros F Z P E.
  destruct (IRCompressedField_mode zlib bz2 _ _ _ _ F) as (h & M & Hh & G & Mode).
  destruct Mode as [(C & _)|(_ & -> & ->)]; [by rewrite C in Z|].
  assert (s ≠ []) as NE by (by intros ->).
  assert (bears_header f (PyStr s) = Ok true) as B.
  { unfold bears_header. rewrite Hh. simpl.
    change (length header_bz2) with 4%nat. by rewrite P. }
  split.
  - apply (toStorage_unchanged zlib bz2 f (PyStr s) data); try done.
    by apply isEmptyString_text.
  - rewrite (fromStorage_decompress zlib bz2 f bz2); try done. by apply isEmptyString_text.
Qed.

End CompressedMore.

Lemma toStorage_idempotent_witness :
  IRCompressedField (ustr "value") (PyStr COMPRESS_MODE_ZLIB) irNull = Ok zlib_field
  ∧ _toStorage Zlib.reference uncalled zlib_field (PyBytes hello_world)
    = Ok (PyBytes compressed_hello)
  ∧ _toStorage Zlib.reference uncalled zlib_field (PyBytes compressed_hello)
    = Ok (PyBytes compressed_hello).
Proof.
  assert (_toStorage Zlib.reference uncalled zlib_field (PyBytes hello_world)
          = Ok (PyBytes compressed_hello)) as T by (vm_compute; reflexivity).
  split; [reflexivity|]. split; [exact T|].
  apply (toStorage_idempotent Zlib.reference uncalled (ustr "value") (PyStr COMPRESS_MODE_ZLIB)
           irNull zlib_field header_zlib Zlib.reference (PyBytes hello_world)
           (PyBytes compressed_hello) eq_refl eq_refl eq_refl); [|exact T].
  intros b c [= <-] C. vm_compute in C. injection C as <-. reflexivity.
Defined.

Lemma toStorage_errors_witness :
  IRCompressedField (ustr "value") (PyStr COMPRESS_MODE_ZLIB) irNull = Ok zlib_field
  ∧ isEmptyString (PyInt 5) = false ∧ tobytes (PyInt 5) = Raise AttributeError
  ∧ _toStorage Zlib.reference uncalled zlib_field (PyInt 5) = Raise ValueError.
Proof.
  split; [reflexivity|]. split; [reflexivity|]. split; [reflexivity|].
  destruct (toStorage_errors Zlib.reference uncalled (ustr "value") (PyStr COMPRESS_MODE_ZLIB)
              irNull zlib_field Zlib.reference (PyInt 5) eq_refl eq_refl) as [T _].
  by apply (T AttributeError).
Defined.

Lemma zlib_compresses_every_text_witness :
  IRCompressedField (ustr "value") (PyStr COMPRESS_MODE_ZLIB) irNull = Ok zlib_field
  ∧ compressMode zlib_field = Ok COMPRESS_MODE_ZLIB
  ∧ ustr "a" ≠ [] ∧ utf8_encode (ustr "a") = Ok (bstr "a")
  ∧ _toStorage Zlib.reference uncalled zlib_field (PyStr (ustr "a")) = Ok (PyBytes compressed_a).
Proof.
  assert (ustr "a" ≠ []) as NE by discriminate.
  split_and!; [reflexivity|reflexivity|exact NE|reflexivity|].
  destruct (zlib_compresses_every_text Zlib.reference uncalled (ustr "value")
              (PyStr COMPRESS_MODE_ZLIB) irNull zlib_field (ustr "a") (bstr "a")
              eq_refl eq_refl NE eq_refl) as [_ T].
  rewrite T. vm_compute. reflexivity.
Defined.

Lemma compressed_text_comes_back_as_bytes_witness :
  IRCompressedField (ustr "value") (PyStr COMPRESS_MODE_ZLIB) irNull = Ok zlib_field
  ∧ compressMode zlib_field = Ok COMPRESS_MODE_ZLIB
  ∧ ustr "a" ≠ [] ∧ utf8_encode (ustr "a") = Ok (bstr "a")
  ∧ Zlib.compress (bstr "a") 9 = Ok compressed_a
  ∧ begins_with header_zlib compressed_a
  ∧ Zlib.decompress compressed_a = Ok (bstr "a")
  ∧ (_toStorage Zlib.reference uncalled zlib_field (PyStr (ustr "a"))
       ≫= _fromStorage Zlib.reference uncalled zlib_field) = Ok (PyBytes (bstr "a")).
Proof.
  assert (ustr "a" ≠ []) as NE by discriminate.
  assert (Zlib.compress (bstr "a") 9 = Ok compressed_a) as C by (vm_compute; reflexivity).
  assert (Zlib.decompress compressed_a = Ok (bstr "a")) as D by (vm_compute; reflexivity).
  split_and!; [reflexivity|reflexivity|exact NE|reflexivity|exact C|reflexivity|exact D|].
  apply (compressed_text_comes_back_as_bytes Zlib.reference uncalled (ustr "value")
           (PyStr COMPRESS_MODE_ZLIB) irNull zlib_field (ustr "a") (bstr "a") compressed_a
           eq_refl eq_refl NE eq_refl C eq_refl D).
Defined.

Lemma bz2_text_with_header_witness :
  IRCompressedField (ustr "value") (PyStr COMPRESS_MODE_BZ2) irNull = Ok bz2_field
  ∧ compressMode bz2_field = Ok COMPRESS_MODE_BZ2
  ∧ take 4 (ustr "BZh9 is a header") = ustr "BZh9"
  ∧ utf8_encode (ustr "BZh9 is a header") = Ok (bstr "BZh9 is a header")
  ∧ _toStorage uncalled uncalled bz2_field (PyStr (ustr "BZh9 is a header"))
    = Ok (PyStr (ustr "BZh9 is a header"))
  ∧ _fromStorage uncalled uncalled bz2_field (PyStr (ustr "BZh9 is a header"))
    = Raise TypeError.
Proof.
  split_and!; [reflexivity..| |];
    apply (bz2_text_with_header uncalled uncalled (ustr "value") (PyStr COMPRESS_MODE_BZ2)
             irNull bz2_field (ustr "BZh9 is a header") (bstr "BZh9 is a header")
             eq_refl eq_refl eq_refl eq_refl).
Defined.

(** ** The pickle descriptor *)

Section Pickled.
Variable pickle : PickleMod.

(** X18 — a value that is pickled and read back is returned, with one
    exception: [None] comes back as the bytes of its pickle, because a
    loaded [None] is taken for "not a pickle".  Here [v] is not an empty
    string, [b] is its pickle at protocol 2, and [loads] inverts [dumps]
    on it (pickle_field.py, lines 33-57). *)
Theorem pickle_round_trip (self : field) (v : pyval) (b : pybytes) :
  isEmptyString v = false →
  dumps pickle v 2 = Ok b → b ≠ [] → loads pickle b = Ok v →
  PickleField._toStorage pickle self v ≫= PickleField._fromStorage pickle self
  = Ok (if decide (v = PyNone) then PyBytes b else v).
Proof.
  intros E D NE L. unfold PickleField._toStorage. rewrite E, D. simpl.
  unfold PickleField._fromStorage, PickleField.__loadPickle.
  rewrite (isEmptyString_bytes_nonempty b NE). simpl. rewrite L. simpl.
  by destruct v.
Qed.

(** X19 — what [_fromStorage] of the pickle field does with a value: an
    empty input (the empty text or the empty byte string) gives the empty
    text; any other value that is no byte string (a text, a number,
    [None], a null value) is returned as it is and never unpickled; a
    non-empty byte string is unpickled, and an error of [loads] is not
    caught: bytes that are no pickle raise; a pickle of [None] is returned
    as the bytes it is (pickle_field.py, lines 39-57). *)
Theorem pickle_fromStorage (self : field) :
  (∀ v, isEmptyString v = true ↔ v = PyStr [] ∨ v = PyBytes [])
  ∧ (∀ v, isEmptyString v = true →
          PickleField._fromStorage pickle self v = Ok (PyStr (ustr "")))
  ∧ (∀ v, isEmptyString v = false → isinstance_bytes v = false →
          PickleField._fromStorage pickle self v = Ok v)
  ∧ (∀ oid val, PickleField._fromStorage pickle self (IRNullType___new__ oid val)
                = Ok (IRNullType___new__ oid val))
  ∧ (∀ b e, b ≠ [] → loads pickle b = Raise e →
            PickleField._fromStorage pickle self (PyBytes b) = Raise e)
  ∧ (∀ b x, b ≠ [] → loads pickle b = Ok x → x ≠ PyNone →
            PickleField._fromStorage pickle self (PyBytes b) = Ok x)
  ∧ (∀ b, b ≠ [] → loads pickle b = Ok PyNone →
          PickleField._fromStorage pickle self (PyBytes b) = Ok (PyBytes b)).
Proof.
  unfold PickleField._fromStorage, PickleField.__loadPickle. split_and!.
  - apply isEmptyString_spec.
  - by intros v ->.
  - intros v -> B. by destruct v.
  - done.
  - intros b e NE L. rewrite (isEmptyString_bytes_nonempty b NE). simpl. by rewrite L.
  - intros b x NE L X. rewrite (isEmptyString_bytes_nonempty b NE). simpl. rewrite L.
    simpl. by destruct x.
  - intros b NE L. rewrite (isEmptyString_bytes_nonempty b NE). simpl. by rewrite L.
Qed.

End Pickled.

Lemma pickle_round_trip_witness :
  isEmptyString (PyInt 5) = false
  ∧ Pickle.dumps (PyInt 5) 2 = Ok [x80; x02; x4b; x05; x2e]
  ∧ Pickle.loads [x80; x02; x4b; x05; x2e] = Ok (PyInt 5)
  ∧ (PickleField._toStorage Pickle.reference pickle_field (PyInt 5)
       ≫= PickleField._fromStorage Pickle.reference pickle_field) = Ok (PyInt 5)
  ∧ (PickleField._toStorage Pickle.reference pickle_field PyNone
       ≫= PickleField._fromStorage Pickle.reference pickle_field)
    = Ok (PyBytes [x80; x02; x4e; x2e]).
Proof.
  assert ([x80; x02; x4b; x05; x2e] ≠ []) as NE by discriminate.
  assert ([x80; x02; x4e; x2e] ≠ []) as NE' by discriminate.
  split_and!; [reflexivity..| |].
  - exact (pickle_round_trip Pickle.reference pickle_field (PyInt 5) _ eq_refl eq_refl NE eq_refl).
  - exact (pickle_round_trip Pickle.reference pickle_field PyNone _ eq_refl eq_refl NE' eq_refl).
Defined.
